(** * flopy.modflow.mfpks: the PKS solver package and its control file

    A shallow embedding of [ModflowPks] (src/flopy/modflow/mfpks.py): the
    constructor with its model-version guard, [write_file] and the [load]
    stub, together with the properties of the control file they produce.

    Python effects are kept explicit.  A computation is a function from a
    [world] (file system, standard output, the host model object) to a new
    world and an [outcome], which is either a returned value or a raised
    exception.  The text passed to [f.write] is appended to the file in the
    world, so what has been written is still visible when a later statement
    raises. *)

From Stdlib Require Import ZArith Ascii String DecimalString DecimalZ DecimalPos.
From stdpp Require Import base strings gmap list.

Local Open Scope Z_scope.

(** ** Strings *)

Definition newline : ascii := Ascii.ascii_of_nat 10.

(** [str.lower()] on the ASCII range.  The result is only ever compared with
    the ASCII literals "l2norm" and "rl2norm"; no character outside the ASCII
    range lower-cases to a character of these literals, so leaving the other
    bytes alone does not change any comparison made by the program. *)
Definition lower_ascii (c : ascii) : ascii :=
  let n := Ascii.nat_of_ascii c in
  if ((65 <=? n)%nat && (n <=? 90)%nat)%bool
  then Ascii.ascii_of_nat (n + 32) else c.

Fixpoint lower (s : string) : string :=
  match s with
  | EmptyString => EmptyString
  | String c s' => String (lower_ascii c) (lower s')
  end.

Fixpoint string_forallb (p : ascii → bool) (s : string) : bool :=
  match s with
  | EmptyString => true
  | String c s' => p c && string_forallb p s'
  end.

Definition newline_free (s : string) : bool :=
  string_forallb (λ c, negb (Ascii.eqb c newline)) s.

(** [s.startswith(p)] *)
Fixpoint startswith (p s : string) : bool :=
  match p, s with
  | EmptyString, _ => true
  | String _ _, EmptyString => false
  | String a p', String b s' => Ascii.eqb a b && startswith p' s'
  end.

(** The lines of a text file: every newline ends a line, and a last line
    without a newline counts as a line ([str.splitlines] for "\n"). *)
Fixpoint splitlines (s : string) : list string :=
  match s with
  | EmptyString => []
  | String c s' =>
      if Ascii.eqb c newline then EmptyString :: splitlines s'
      else match splitlines s' with
           | [] => [String c EmptyString]
           | l :: ls => String c l :: ls
           end
  end.

(** The text of a sequence of newline-terminated lines. *)
Fixpoint unlines (ls : list string) : string :=
  match ls with
  | [] => EmptyString
  | l :: ls' => l +:+ String newline (unlines ls')
  end.

(** ** Python values *)

(** A Python [float] is carried as its [repr], the shortest decimal string
    that reads back as the same float; this is what ["{0}".format(x)] prints.
    The program stores and prints floats and does nothing else with them. *)
Definition float_char (c : ascii) : bool :=
  let n := Ascii.nat_of_ascii c in
  ((48 <=? n)%nat && (n <=? 57)%nat)              (* 0-9 *)
  || bool_decide (c ∈ ["."; "e"; "-"; "+"; "i"; "n"; "f"; "a"]%char).

Record pyfloat := PyFloatRepr {
  float_repr : string;
  float_repr_ok : string_forallb float_char float_repr = true
}.

(** The values a field of the package object may hold: the scalars, and
    byte strings, which are not [str] but share its [lower] method (a
    [bytearray] behaves as [bytes] in everything the program does). *)
Inductive pyval :=
  | PyNone
  | PyBool (b : bool)
  | PyInt (n : Z)
  | PyFloat (x : pyfloat)
  | PyStr (s : string)
  | PyBytes (b : string).

Definition type_name (v : pyval) : string :=
  match v with
  | PyNone => "NoneType"
  | PyBool _ => "bool"
  | PyInt _ => "int"
  | PyFloat _ => "float"
  | PyStr _ => "str"
  | PyBytes _ => "bytes"
  end.

Definition is_None (v : pyval) : bool :=
  match v with PyNone => true | _ => false end.

Definition is_str (v : pyval) : bool :=
  match v with PyStr _ => true | _ => false end.

Definition is_bytes (v : pyval) : bool :=
  match v with PyBytes _ => true | _ => false end.

(** [hasattr(v, "lower")] *)
Definition has_lower (v : pyval) : bool := is_str v || is_bytes v.

(** [v == "lit"] for a string literal: only an equal string is equal to it
    (a byte string never is). *)
Definition py_eq_str (v : pyval) (lit : string) : bool :=
  match v with
  | PyStr s => String.eqb s lit
  | _ => false
  end.

(** ["{0}".format(x)]: the [__format__] protocol with an empty format
    specification. *)
Class Format (A : Type) := format : A → string.

Definition format_int (n : Z) : string := NilZero.string_of_int (Z.to_int n).

(** [repr] of a string that contains no quote, backslash or control
    character: the package names are such strings. *)
Definition repr_str (s : string) : string := "'" +:+ s +:+ "'".

Fixpoint join (sep : string) (l : list string) : string :=
  match l with
  | [] => ""
  | [x] => x
  | x :: l' => x +:+ sep +:+ join sep l'
  end.

Global Instance format_Z : Format Z := format_int.
Global Instance format_float : Format pyfloat := float_repr.
Global Instance format_string : Format string := λ s, s.
Global Instance format_str_list : Format (list string) :=
  λ l, "[" +:+ join ", " (repr_str <$> l) +:+ "]".

(** ** Exceptions and outcomes *)

Inductive exn :=
  | Exception (msg : string)
  | AttributeError (msg : string)
  | IndexError (msg : string)
  | FileNotFoundError (path : string).

Inductive outcome (A : Type) :=
  | Return (a : A)
  | Raise (e : exn).
Global Arguments Return {A} a.
Global Arguments Raise {A} e.

Definition returned {A} (o : outcome A) : bool :=
  match o with Return _ => true | Raise _ => false end.

(** ** The package object, the host model and the world *)

(** The attributes set by the base class [Package] (flopy/pakbase.py).  The
    back reference [self.parent] is not stored: the host model is the [host]
    component of the world. *)
Record Package := {
  extension : string;
  name : list string;
  unit_number : list Z;
  extra : list string;
  file_name : list (option string);
  fn_path : string
}.

(** [class ModflowPks(Package)]: the attributes assigned in [__init__], typed
    as the defaults of its signature are.  [l2norm] and [partdata] default to
    [None] and are dynamically typed. *)
Record ModflowPks := {
  base : Package;
  heading : string;
  url : string;
  mxiter : Z;
  innerit : Z;
  isolver : Z;
  npc : Z;
  iscl : Z;
  iord : Z;
  ncoresm : Z;
  ncoresv : Z;
  damp : pyfloat;
  dampt : pyfloat;
  relax : pyfloat;
  ifill : Z;
  droptol : pyfloat;
  hclose : pyfloat;
  rclose : pyfloat;
  l2norm : pyval;
  iprpks : Z;
  mutpks : Z;
  mpi : bool;
  partopt : Z;
  novlapimpsol : Z;
  stenimpsol : Z;
  verbose : Z;
  partdata : pyval
}.

Module Model.

(** The host model, as far as this module uses it. *)
Record Modflow := {
  version : string;
  verbose : bool;
  packagelist : list ModflowPks
}.

End Model.

(** An open file is named by its path; writes go to the file system at once
    (buffering is not modelled). *)
Definition handle := string.

Record world := World {
  fs : gmap string string;
  stdout : string;
  host : Model.Modflow
}.

Definition set_fs (m : gmap string string) (w : world) : world :=
  {| fs := m; stdout := stdout w; host := host w |}.

Definition set_stdout (s : string) (w : world) : world :=
  {| fs := fs w; stdout := s; host := host w |}.

Definition set_host (m : Model.Modflow) (w : world) : world :=
  {| fs := fs w; stdout := stdout w; host := m |}.

(** ** Computations *)

Definition py (A : Type) : Type := world → world * outcome A.

Global Instance py_ret : MRet py := λ A a w, (w, Return a).

Global Instance py_bind : MBind py := λ A B k m w,
  match m w with
  | (w', Return a) => k a w'
  | (w', Raise e) => (w', Raise e)
  end.

Definition raise {A} (e : exn) : py A := λ w, (w, Raise e).

Definition when (b : bool) (m : py unit) : py unit :=
  if b then m else mret tt.

(** [open(path, "w")]: creates or truncates the file. *)
Definition open_w (path : string) : py handle :=
  λ w, (set_fs (<[path := ""]> (fs w)) w, Return path).

(** [open(path, "r")]: the file has to exist. *)
Definition open_r (path : string) : py handle :=
  λ w, match fs w !! path with
       | Some _ => (w, Return path)
       | None => (w, Raise (FileNotFoundError path))
       end.

(** [f.write(s)] *)
Definition write (f : handle) (s : string) : py unit :=
  λ w, (set_fs (alter (λ c, c +:+ s) f (fs w)) w, Return tt).

(** [f.close()] *)
Definition close (f : handle) : py unit := mret tt.

(** [sys.stdout.write(s)] *)
Definition stdout_write (s : string) : py unit :=
  λ w, (set_stdout (stdout w +:+ s) w, Return tt).

(** [print(s)] *)
Definition print (s : string) : py unit := stdout_write (s +:+ String newline "").

(** [v.lower()]: [str] and [bytes] have the method, and [bytes.lower()]
    changes the ASCII letters only; the other values have no such
    attribute. *)
Definition py_lower (v : pyval) : py pyval :=
  match v with
  | PyStr s => mret (PyStr (lower s))
  | PyBytes b => mret (PyBytes (lower b))
  | _ => raise (AttributeError
           ("'" +:+ type_name v +:+ "' object has no attribute 'lower'"))
  end.

(** ** [ModflowPks.write_file] *)

Definition nl : string := String newline "".

Definition write_file (self : ModflowPks) : py unit :=
  f ← open_w (fn_path (base self));
  write f (heading self +:+ nl);;
  write f ("MXITER " +:+ format (mxiter self) +:+ nl);;
  write f ("INNERIT " +:+ format (innerit self) +:+ nl);;
  write f ("ISOLVER " +:+ format (isolver self) +:+ nl);;
  write f ("NPC " +:+ format (npc self) +:+ nl);;
  write f ("ISCL " +:+ format (iscl self) +:+ nl);;
  write f ("IORD " +:+ format (iord self) +:+ nl);;
  when (bool_decide (ncoresm self > 1))
    (write f ("NCORESM " +:+ format (ncoresm self) +:+ nl));;
  when (bool_decide (ncoresv self > 1))
    (write f ("NCORESV " +:+ format (ncoresv self) +:+ nl));;
  write f ("DAMP " +:+ format (damp self) +:+ nl);;
  write f ("DAMPT " +:+ format (dampt self) +:+ nl);;
  when (bool_decide (npc self > 0))
    (write f ("RELAX " +:+ format (relax self) +:+ nl));;
  when (bool_decide (npc self = 3))
    (write f ("IFILL " +:+ format (ifill self) +:+ nl);;
     write f ("DROPTOL " +:+ format (droptol self) +:+ nl));;
  write f ("HCLOSEPKS " +:+ format (hclose self) +:+ nl);;
  write f ("RCLOSEPKS " +:+ format (rclose self) +:+ nl);;
  (if negb (is_None (l2norm self)) then
     low ← py_lower (l2norm self);
     if py_eq_str low "l2norm" || py_eq_str (l2norm self) "1" then
       write f ("L2NORM" +:+ nl)
     else
       low' ← py_lower (l2norm self);
       if py_eq_str low' "rl2norm" || py_eq_str (l2norm self) "2" then
         write f ("RELATIVE-L2NORM" +:+ nl)
       else mret tt
   else mret tt);;
  write f ("IPRPKS " +:+ format (iprpks self) +:+ nl);;
  write f ("MUTPKS " +:+ format (mutpks self) +:+ nl);;
  (* MPI *)
  (if mpi self then
     write f ("PARTOPT " +:+ format (partopt self) +:+ nl);;
     write f ("NOVLAPIMPSOL " +:+ format (novlapimpsol self) +:+ nl);;
     write f ("STENIMPSOL " +:+ format (stenimpsol self) +:+ nl);;
     write f ("VERBOSE " +:+ format (verbose self) +:+ nl);;
     (* [if self.partopt == 1 | 2: pass]; [1 | 2] is the bitwise or, 3 *)
     (if bool_decide (partopt self = Z.lor 1 2) then mret tt else mret tt)
   else mret tt);;
  write f ("END" +:+ nl);;
  close f.

(** ** [ModflowPks.__init__] *)

Definition _ftype : string := "PKS".

Definition _defaultunit : Z := 27.

(** The [filenames] argument: [None], a single string, or a list. *)
Inductive filenames_arg :=
  | FnNone
  | FnStr (s : string)
  | FnList (l : list (option string)).

Definition float_lit (s : string)
    (H : string_forallb float_char s = true) : pyfloat :=
  {| float_repr := s; float_repr_ok := H |}.

Module Kw.

(** The keyword arguments of [ModflowPks.__init__]. *)
Record args := {
  mxiter : Z;
  innerit : Z;
  isolver : Z;
  npc : Z;
  iscl : Z;
  iord : Z;
  ncoresm : Z;
  ncoresv : Z;
  damp : pyfloat;
  dampt : pyfloat;
  relax : pyfloat;
  ifill : Z;
  droptol : pyfloat;
  hclose : pyfloat;
  rclose : pyfloat;
  l2norm : pyval;
  iprpks : Z;
  mutpks : Z;
  mpi : bool;
  partopt : Z;
  novlapimpsol : Z;
  stenimpsol : Z;
  verbose : Z;
  partdata : pyval;
  extension : string;
  unitnumber : option Z;
  filenames : filenames_arg
}.

(** The defaults of the signature; [1e-3] and [1e-1] print as 0.001 and 0.1. *)
Definition defaults : args := {|
  mxiter := 100;
  innerit := 50;
  isolver := 1;
  npc := 2;
  iscl := 0;
  iord := 0;
  ncoresm := 1;
  ncoresv := 1;
  damp := float_lit "1.0" eq_refl;
  dampt := float_lit "1.0" eq_refl;
  relax := float_lit "0.97" eq_refl;
  ifill := 0;
  droptol := float_lit "0.0" eq_refl;
  hclose := float_lit "0.001" eq_refl;
  rclose := float_lit "0.1" eq_refl;
  l2norm := PyNone;
  iprpks := 0;
  mutpks := 3;
  mpi := false;
  partopt := 0;
  novlapimpsol := 1;
  stenimpsol := 2;
  verbose := 0;
  partdata := PyNone;
  extension := "pks";
  unitnumber := None;
  filenames := FnNone
|}.

(** [cls(model, unitnumber=u, filenames=fn)]: every other argument is left
    at its default. *)
Definition only_unit_and_files (u : option Z) (fn : filenames_arg) : args := {|
  mxiter := mxiter defaults;
  innerit := innerit defaults;
  isolver := isolver defaults;
  npc := npc defaults;
  iscl := iscl defaults;
  iord := iord defaults;
  ncoresm := ncoresm defaults;
  ncoresv := ncoresv defaults;
  damp := damp defaults;
  dampt := dampt defaults;
  relax := relax defaults;
  ifill := ifill defaults;
  droptol := droptol defaults;
  hclose := hclose defaults;
  rclose := rclose defaults;
  l2norm := l2norm defaults;
  iprpks := iprpks defaults;
  mutpks := mutpks defaults;
  mpi := mpi defaults;
  partopt := partopt defaults;
  novlapimpsol := novlapimpsol defaults;
  stenimpsol := stenimpsol defaults;
  verbose := verbose defaults;
  partdata := partdata defaults;
  extension := extension defaults;
  unitnumber := u;
  filenames := fn
|}.

End Kw.

(** [l[i]] for a list: out of range raises [IndexError]. *)
Definition getitem {A} (l : list A) (i : nat) : py A :=
  match l !! i with
  | Some x => mret x
  | None => raise (IndexError "list index out of range")
  end.

Definition get_host : py Model.Modflow := λ w, (w, Return (host w)).

(** Modelled from the spec: [add_package] of the host model (flopy/mbase.py
    is not part of the sources at hand).  The new instance is appended to the
    host model's list of active packages. *)
Definition add_package (p : ModflowPks) : py unit :=
  λ w, (set_host {| Model.version := Model.version (host w);
                    Model.verbose := Model.verbose (host w);
                    Model.packagelist := Model.packagelist (host w) ++ [p] |} w,
        Return tt).

Section Host.

(** What the host framework decides and this module only passes on: the
    path a package file gets from the model's naming convention, the heading
    generated from the model metadata, and the resolution of a file-type tag
    in an external-unit table. *)
Variable package_path : Model.Modflow → string → list (option string) → string.
Variable _generate_heading : Model.Modflow → Package → string.
Variable ExtUnitDict : Type.
Variable get_ext_dict_attr :
  Model.Modflow → ExtUnitDict → string → option Z * option string.

(** Modelled from the spec: [Package.__init__] (flopy/pakbase.py is not part
    of the sources at hand).  As the call site says, it sets [self.parent],
    extension, name and unit number; it touches neither the file system nor
    the model's package list. *)
Definition Package__init__ (model : Model.Modflow) (extension : string)
    (name : list string) (unit_number : list Z) (extra : list string)
    (filenames : list (option string)) : Package :=
  {| extension := extension;
     name := name;
     unit_number := unit_number;
     extra := extra;
     file_name := filenames;
     fn_path := package_path model extension filenames |}.

(** [model] is the [host] of the world. *)
Definition __init__ (kw : Kw.args) : py ModflowPks :=
  model ← get_host;
  (* set default unit number of one is not specified *)
  let unitnumber :=
    match Kw.unitnumber kw with
    | None => _defaultunit
    | Some u => u
    end in
  (* set filenames *)
  let filenames :=
    match Kw.filenames kw with
    | FnNone => [None]
    | FnStr s => [Some s]
    | FnList l => l
    end in
  (* set package name *)
  f0 ← getitem filenames 0;
  let fname := [f0] in
  (* namefile items: name = [_ftype()], units = [unitnumber], extra = [""] *)
  let self := Package__init__ model (Kw.extension kw)
                [_ftype] [unitnumber] [""] fname in
  (* check if a valid model version has been specified *)
  if String.eqb (Model.version model) "mf2k"
     || String.eqb (Model.version model) "mfnwt" then
    let err := "Error: cannot use " +:+ format (name self)
               +:+ " package with model version "
               +:+ format (Model.version model) in
    raise (Exception err)
  else
    let self := {|
      base := self;
      heading := _generate_heading model self;
      url := "pks.htm";
      mxiter := Kw.mxiter kw;
      innerit := Kw.innerit kw;
      isolver := Kw.isolver kw;
      npc := Kw.npc kw;
      iscl := Kw.iscl kw;
      iord := Kw.iord kw;
      ncoresm := Kw.ncoresm kw;
      ncoresv := Kw.ncoresv kw;
      damp := Kw.damp kw;
      dampt := Kw.dampt kw;
      relax := Kw.relax kw;
      ifill := Kw.ifill kw;
      droptol := Kw.droptol kw;
      hclose := Kw.hclose kw;
      rclose := Kw.rclose kw;
      l2norm := Kw.l2norm kw;
      iprpks := Kw.iprpks kw;
      mutpks := Kw.mutpks kw;
      mpi := Kw.mpi kw;
      partopt := Kw.partopt kw;
      novlapimpsol := Kw.novlapimpsol kw;
      stenimpsol := Kw.stenimpsol kw;
      verbose := Kw.verbose kw;
      partdata := Kw.partdata kw
    |} in
    add_package self;;
    mret self.

(** ** [ModflowPks.load] *)

(** The argument [f] of [load]: a file name or an open file object. *)
Inductive file_arg :=
  | FileName (path : string)
  | FileObj (h : handle).

(** [hasattr(f, "read")] *)
Definition hasattr_read (f : file_arg) : bool :=
  match f with FileName _ => false | FileObj _ => true end.

Definition load (f : file_arg) (ext_unit_dict : option ExtUnitDict)
    : py ModflowPks :=
  model ← get_host;
  when (Model.verbose model)
    (stdout_write ("loading pks package file..." +:+ nl));;
  let openfile := negb (hasattr_read f) in
  (* [if openfile: filename = f; f = open(filename, "r")] *)
  f ← match f with
      | FileName filename => open_r filename
      | FileObj h => mret h
      end;
  (* dataset 0 -- header *)
  print "   Warning: load method not completed. default pks object created.";;
  when openfile (close f);;
  (* set package unit number *)
  let '(unitnumber, filename0) :=
    match ext_unit_dict with
    | Some d => get_ext_dict_attr model d _ftype
    | None => (None, None)
    end in
  __init__ (Kw.only_unit_and_files unitnumber (FnList [filename0])).

End Host.

(** ** The control file as a sequence of lines *)

(** The contents of the package file once [write_file] has run (whether it
    returned or raised), its lines, and how the call ended. *)
Definition file_content (self : ModflowPks) (w : world) : string :=
  default "" (fs (write_file self w).1 !! fn_path (base self)).

Definition file_lines (self : ModflowPks) (w : world) : list string :=
  splitlines (file_content self w).

Definition write_status (self : ModflowPks) (w : world) : outcome unit :=
  (write_file self w).2.

(** A directive line: the keyword, a blank, the value. *)
Definition keyword_line (key : string) (l : string) : bool :=
  startswith (key +:+ " ") l.

(** The two norm lines are bare keywords. *)
Definition norm_line (l : string) : bool :=
  String.eqb l "L2NORM" || String.eqb l "RELATIVE-L2NORM".

Definition fill_line (l : string) : bool :=
  keyword_line "IFILL" l || keyword_line "DROPTOL" l.

Definition partition_line (l : string) : bool :=
  keyword_line "PARTOPT" l || keyword_line "NOVLAPIMPSOL" l
  || keyword_line "STENIMPSOL" l || keyword_line "VERBOSE" l.

(** The heading generated at construction is one comment line. *)
Definition comment_line (h : string) : bool :=
  startswith "#" h && newline_free h.

(** The norm field is unset or holds a string. *)
Definition textual (v : pyval) : bool := is_None v || is_str v.

(** The norm branch does not raise: the field is unset, or has a [lower]
    method. *)
Definition norm_passes (v : pyval) : bool := is_None v || has_lower v.

(** The tokens the norm branch recognises. *)
Definition l2norm_token (s : string) : bool :=
  String.eqb (lower s) "l2norm" || String.eqb s "1".

Definition rl2norm_token (s : string) : bool :=
  String.eqb (lower s) "rl2norm" || String.eqb s "2".

Definition recognised (v : pyval) : bool :=
  match v with
  | PyStr s => l2norm_token s || rl2norm_token s
  | _ => false
  end.

(** The lines of the file, group by group, in the order of the format. *)
Definition solver_lines (self : ModflowPks) : list string :=
  [ "MXITER " +:+ format (mxiter self);
    "INNERIT " +:+ format (innerit self);
    "ISOLVER " +:+ format (isolver self);
    "NPC " +:+ format (npc self);
    "ISCL " +:+ format (iscl self);
    "IORD " +:+ format (iord self) ].

Definition core_lines (self : ModflowPks) : list string :=
  (if bool_decide (ncoresm self > 1)
   then ["NCORESM " +:+ format (ncoresm self)] else [])
  ++ (if bool_decide (ncoresv self > 1)
      then ["NCORESV " +:+ format (ncoresv self)] else []).

Definition damping_lines (self : ModflowPks) : list string :=
  [ "DAMP " +:+ format (damp self); "DAMPT " +:+ format (dampt self) ].

Definition relax_lines (self : ModflowPks) : list string :=
  if bool_decide (npc self > 0)
  then ["RELAX " +:+ format (relax self)] else [].

Definition fill_lines (self : ModflowPks) : list string :=
  if bool_decide (npc self = 3)
  then [ "IFILL " +:+ format (ifill self);
         "DROPTOL " +:+ format (droptol self) ]
  else [].

Definition closure_lines (self : ModflowPks) : list string :=
  [ "HCLOSEPKS " +:+ format (hclose self);
    "RCLOSEPKS " +:+ format (rclose self) ].

Definition norm_lines (self : ModflowPks) : list string :=
  match l2norm self with
  | PyStr s =>
      if l2norm_token s then ["L2NORM"]
      else if rl2norm_token s then ["RELATIVE-L2NORM"]
      else []
  | _ => []
  end.

Definition report_lines (self : ModflowPks) : list string :=
  [ "IPRPKS " +:+ format (iprpks self);
    "MUTPKS " +:+ format (mutpks self) ].

Definition partition_lines (self : ModflowPks) : list string :=
  if mpi self
  then [ "PARTOPT " +:+ format (partopt self);
         "NOVLAPIMPSOL " +:+ format (novlapimpsol self);
         "STENIMPSOL " +:+ format (stenimpsol self);
         "VERBOSE " +:+ format (verbose self) ]
  else [].

(** Everything up to the norm branch, heading excluded. *)
Definition leading_lines (self : ModflowPks) : list string :=
  solver_lines self ++ core_lines self ++ damping_lines self
  ++ relax_lines self ++ fill_lines self ++ closure_lines self.

(** The norm branch and what follows it. *)
Definition trailing_lines (self : ModflowPks) : list string :=
  norm_lines self ++ report_lines self ++ partition_lines self ++ ["END"].

Definition lower_error (v : pyval) : exn :=
  AttributeError ("'" +:+ type_name v +:+ "' object has no attribute 'lower'").

(** The directive lines that reach the file: the trailing ones only when the
    norm branch does not raise. *)
Definition directive_lines (self : ModflowPks) : list string :=
  leading_lines self
  ++ (if norm_passes (l2norm self) then trailing_lines self else []).

Definition expected_status (self : ModflowPks) : outcome unit :=
  if norm_passes (l2norm self) then Return tt
  else Raise (lower_error (l2norm self)).

(** ** The properties under study, as predicates *)

(** The file ends with the line END and nothing after it. *)
Definition ends_with_END (self : ModflowPks) (w : world) : Prop :=
  last (file_lines self w) = Some "END".

(** The partition block: with the parallel flag, exactly the four lines, in
    order, between the MUTPKS line and END; without it, none of them. *)
Definition partition_block (self : ModflowPks) (w : world) : Prop :=
  let ls := file_lines self w in
  if mpi self then
    List.filter partition_line ls
      = [ "PARTOPT " +:+ format (partopt self);
          "NOVLAPIMPSOL " +:+ format (novlapimpsol self);
          "STENIMPSOL " +:+ format (stenimpsol self);
          "VERBOSE " +:+ format (verbose self) ]
    ∧ ∃ pre, ls = pre ++ [ "MUTPKS " +:+ format (mutpks self);
                           "PARTOPT " +:+ format (partopt self);
                           "NOVLAPIMPSOL " +:+ format (novlapimpsol self);
                           "STENIMPSOL " +:+ format (stenimpsol self);
                           "VERBOSE " +:+ format (verbose self);
                           "END" ]
  else List.filter partition_line ls = [].

Definition set_l2norm (v : pyval) (self : ModflowPks) : ModflowPks := {|
  base := base self;
  heading := heading self;
  url := url self;
  mxiter := mxiter self;
  innerit := innerit self;
  isolver := isolver self;
  npc := npc self;
  iscl := iscl self;
  iord := iord self;
  ncoresm := ncoresm self;
  ncoresv := ncoresv self;
  damp := damp self;
  dampt := dampt self;
  relax := relax self;
  ifill := ifill self;
  droptol := droptol self;
  hclose := hclose self;
  rclose := rclose self;
  l2norm := v;
  iprpks := iprpks self;
  mutpks := mutpks self;
  mpi := mpi self;
  partopt := partopt self;
  novlapimpsol := novlapimpsol self;
  stenimpsol := stenimpsol self;
  verbose := verbose self;
  partdata := partdata self
|}.

(** An unrecognised norm value is passed over in silence: the call returns,
    no norm line is written, and the run is the one of an unset field. *)
Definition silently_skipped (self : ModflowPks) (w : world) : Prop :=
  write_status self w = Return tt
  ∧ List.filter norm_line (file_lines self w) = []
  ∧ write_file self w = write_file (set_l2norm PyNone self) w.

(** [write_file] ends with the [AttributeError] of the failed
    [l2norm.lower()]. *)
Definition raises_in_norm_branch (self : ModflowPks) (w : world) : Prop :=
  write_status self w
  = Raise (AttributeError
             ("'" +:+ type_name (l2norm self)
              +:+ "' object has no attribute 'lower'")).

(** The solver tuning parameters of [self] are the defaults of [__init__]. *)
Definition tuning_defaults (self : ModflowPks) : Prop :=
  mxiter self = 100 ∧ innerit self = 50 ∧ isolver self = 1 ∧ npc self = 2
  ∧ iscl self = 0 ∧ iord self = 0 ∧ ncoresm self = 1 ∧ ncoresv self = 1
  ∧ damp self = float_lit "1.0" eq_refl
  ∧ dampt self = float_lit "1.0" eq_refl
  ∧ relax self = float_lit "0.97" eq_refl
  ∧ ifill self = 0
  ∧ droptol self = float_lit "0.0" eq_refl
  ∧ hclose self = float_lit "0.001" eq_refl
  ∧ rclose self = float_lit "0.1" eq_refl
  ∧ l2norm self = PyNone
  ∧ iprpks self = 0 ∧ mutpks self = 3 ∧ mpi self = false
  ∧ partopt self = 0 ∧ novlapimpsol self = 1 ∧ stenimpsol self = 2
  ∧ verbose self = 0 ∧ partdata self = PyNone.

Definition load_warning : string :=
  "   Warning: load method not completed. default pks object created." +:+ nl.

Definition excluded_version (v : string) : bool :=
  String.eqb v "mf2k" || String.eqb v "mfnwt".

(** [f] can be read: it is an open file object, or names an existing file. *)
Definition readable (f : file_arg) (w : world) : Prop :=
  match f with
  | FileName path => is_Some (fs w !! path)
  | FileObj _ => True
  end.

Section HostClaims.

Variable package_path : Model.Modflow → string → list (option string) → string.
Variable _generate_heading : Model.Modflow → Package → string.
Variable ExtUnitDict : Type.
Variable get_ext_dict_attr :
  Model.Modflow → ExtUnitDict → string → option Z * option string.

(** [load] returns a package with default tuning parameters, after the
    warning, bound to unit 27 or to what the table resolves for "PKS". *)
Definition load_default_result (f : file_arg) (d : option ExtUnitDict)
    (w : world) : Prop :=
  ∃ pks w',
    load package_path _generate_heading ExtUnitDict get_ext_dict_attr f d w
      = (w', Return pks)
    ∧ tuning_defaults pks
    ∧ stdout w' =
        stdout w
        +:+ (if Model.verbose (host w)
             then "loading pks package file..." +:+ nl else "")
        +:+ load_warning
    ∧ match d with
      | None =>
          unit_number (base pks) = [27] ∧ file_name (base pks) = [None]
      | Some table =>
          let '(u, fname) := get_ext_dict_attr (host w) table "PKS" in
          unit_number (base pks) = [match u with Some n => n | None => 27 end]
          ∧ file_name (base pks) = [fname]
      end.

End HostClaims.

(** ** Sample inputs *)

Definition sample_model (version : string) : Model.Modflow :=
  {| Model.version := version; Model.verbose := true;
     Model.packagelist := [] |}.

Definition sample_world (version : string) : world :=
  {| fs := {[ "old.pks" := "MXITER 7" +:+ nl ]};
     stdout := "";
     host := sample_model version |}.

Definition sample_path (m : Model.Modflow) (ext : string)
    (fnames : list (option string)) : string :=
  match fnames with
  | Some fname :: _ => fname
  | _ => "modflowtest." +:+ ext
  end.

Definition sample_heading (m : Model.Modflow) (p : Package) : string :=
  "# " +:+ join ", " (name p) +:+ " package for " +:+ Model.version m.

(** A table that resolves "PKS" to unit 33 and the file old.pks. *)
Definition sample_resolve (m : Model.Modflow) (table : unit) (ftype : string)
    : option Z * option string :=
  if String.eqb ftype "PKS" then (Some 33, Some "old.pks") else (None, None).

Definition sample_pks (npc ncoresm ncoresv : Z) (l2norm : pyval) (mpi : bool)
    : ModflowPks := {|
  base := {| extension := "pks"; name := ["PKS"]; unit_number := [27];
             extra := [""]; file_name := [None];
             fn_path := "modflowtest.pks" |};
  heading := "# PKS package for mf2005";
  url := "pks.htm";
  mxiter := 100;
  innerit := 50;
  isolver := 1;
  npc := npc;
  iscl := 0;
  iord := 0;
  ncoresm := ncoresm;
  ncoresv := ncoresv;
  damp := float_lit "1.0" eq_refl;
  dampt := float_lit "1.0" eq_refl;
  relax := float_lit "0.97" eq_refl;
  ifill := 0;
  droptol := float_lit "0.0" eq_refl;
  hclose := float_lit "0.001" eq_refl;
  rclose := float_lit "0.1" eq_refl;
  l2norm := l2norm;
  iprpks := 0;
  mutpks := 3;
  mpi := mpi;
  partopt := 1;
  novlapimpsol := 1;
  stenimpsol := 2;
  verbose := 0;
  partdata := PyNone
|}.

(** ** Notions for the properties of the module as a whole *)

(** The keywords of the directives that [write_file] writes without a test,
    before the norm branch. *)
Definition fixed_keys : list string :=
  [ "MXITER"; "INNERIT"; "ISOLVER"; "NPC"; "ISCL"; "IORD";
    "DAMP"; "DAMPT"; "HCLOSEPKS"; "RCLOSEPKS" ].

Definition fixed_line (l : string) : bool :=
  existsb (λ key, keyword_line key l) fixed_keys.

Definition report_line (l : string) : bool :=
  keyword_line "IPRPKS" l || keyword_line "MUTPKS" l.

(** [self.partopt = po; self.novlapimpsol = no; ...]: the attributes of the
    partition block assigned anew. *)
Definition set_partition (po no st ve : Z) (pd : pyval) (self : ModflowPks)
    : ModflowPks := {|
  base := base self;
  heading := heading self;
  url := url self;
  mxiter := mxiter self;
  innerit := innerit self;
  isolver := isolver self;
  npc := npc self;
  iscl := iscl self;
  iord := iord self;
  ncoresm := ncoresm self;
  ncoresv := ncoresv self;
  damp := damp self;
  dampt := dampt self;
  relax := relax self;
  ifill := ifill self;
  droptol := droptol self;
  hclose := hclose self;
  rclose := rclose self;
  l2norm := l2norm self;
  iprpks := iprpks self;
  mutpks := mutpks self;
  mpi := mpi self;
  partopt := po;
  novlapimpsol := no;
  stenimpsol := st;
  verbose := ve;
  partdata := pd
|}.

(** The keyword arguments [kw] with [unitnumber] and [filenames] replaced. *)
Definition with_unit_and_files (u : option Z) (fn : filenames_arg)
    (kw : Kw.args) : Kw.args := {|
  Kw.mxiter := Kw.mxiter kw;
  Kw.innerit := Kw.innerit kw;
  Kw.isolver := Kw.isolver kw;
  Kw.npc := Kw.npc kw;
  Kw.iscl := Kw.iscl kw;
  Kw.iord := Kw.iord kw;
  Kw.ncoresm := Kw.ncoresm kw;
  Kw.ncoresv := Kw.ncoresv kw;
  Kw.damp := Kw.damp kw;
  Kw.dampt := Kw.dampt kw;
  Kw.relax := Kw.relax kw;
  Kw.ifill := Kw.ifill kw;
  Kw.droptol := Kw.droptol kw;
  Kw.hclose := Kw.hclose kw;
  Kw.rclose := Kw.rclose kw;
  Kw.l2norm := Kw.l2norm kw;
  Kw.iprpks := Kw.iprpks kw;
  Kw.mutpks := Kw.mutpks kw;
  Kw.mpi := Kw.mpi kw;
  Kw.partopt := Kw.partopt kw;
  Kw.novlapimpsol := Kw.novlapimpsol kw;
  Kw.stenimpsol := Kw.stenimpsol kw;
  Kw.verbose := Kw.verbose kw;
  Kw.partdata := Kw.partdata kw;
  Kw.extension := Kw.extension kw;
  Kw.unitnumber := u;
  Kw.filenames := fn
|}.

(** The directive lines of a package built from the default arguments. *)
Definition default_directives : list string :=
  [ "MXITER 100"; "INNERIT 50"; "ISOLVER 1"; "NPC 2"; "ISCL 0"; "IORD 0";
    "DAMP 1.0"; "DAMPT 1.0"; "RELAX 0.97"; "HCLOSEPKS 0.001";
    "RCLOSEPKS 0.1"; "IPRPKS 0"; "MUTPKS 3"; "END" ].

(** ** Computations that append lines to one file *)

(** [emits m f ls r]: run on a world where [f] exists, [m] appends the lines
    [ls] to [f], changes nothing else, and ends with [r]. *)
Definition emits {A} (m : py A) (f : handle) (ls : list string)
    (r : outcome A) : Prop :=
  ∀ w c, fs w !! f = Some c →
    m w = (set_fs (<[f := c +:+ unlines ls]> (fs w)) w, r).

(** * Proofs *)

(** ** Strings and lines *)

Lemma string_app_cons (x : ascii) (a b : string) :
  String x a +:+ b = String x (a +:+ b).
Proof. reflexivity. Qed.

Lemma string_app_assoc (a b c : string) : (a +:+ b) +:+ c = a +:+ b +:+ c.
Proof.
  induction a as [|x a IH]; [done |].
  by rewrite !string_app_cons, IH.
Qed.

Lemma string_app_nil_r (a : string) : a +:+ "" = a.
Proof.
  induction a as [|x a IH]; [done |].
  by rewrite string_app_cons, IH.
Qed.

Lemma string_forallb_app p (a b : string) :
  string_forallb p (a +:+ b) = string_forallb p a && string_forallb p b.
Proof.
  induction a as [|x a IH]; [done |].
  rewrite string_app_cons. simpl. by rewrite IH, andb_assoc.
Qed.

Lemma newline_free_app (a b : string) :
  newline_free a = true → newline_free b = true → newline_free (a +:+ b) = true.
Proof.
  unfold newline_free. intros Ha Hb.
  by rewrite string_forallb_app, Ha, Hb.
Qed.

Lemma string_forallb_impl (p q : ascii → bool) (s : string) :
  (∀ c, p c = true → q c = true) →
  string_forallb p s = true → string_forallb q s = true.
Proof.
  intros Hpq. induction s as [|c s IH]; simpl; [done |].
  intros [Hc Hs]%andb_true_iff. apply andb_true_iff. auto.
Qed.

Lemma float_char_not_newline (c : ascii) :
  float_char c = true → negb (Ascii.eqb c newline) = true.
Proof.
  intros H. destruct (Ascii.eqb_spec c newline) as [->|]; [|done].
  by vm_compute in H.
Qed.

Lemma newline_free_float (x : pyfloat) : newline_free (format x) = true.
Proof.
  unfold format, format_float, newline_free.
  eapply string_forallb_impl; [apply float_char_not_newline|].
  apply float_repr_ok.
Qed.

Lemma newline_free_uint (d : Decimal.uint) :
  newline_free (NilEmpty.string_of_uint d) = true.
Proof. induction d; simpl; done. Qed.

Lemma newline_free_uint0 (d : Decimal.uint) :
  newline_free (NilZero.string_of_uint d) = true.
Proof.
  unfold NilZero.string_of_uint.
  destruct d; try done; apply (newline_free_uint (_ d)).
Qed.

Lemma newline_free_int (n : Z) : newline_free (format n) = true.
Proof.
  unfold format, format_Z, format_int.
  destruct (Z.to_int n) as [d|d]; unfold NilZero.string_of_int.
  - apply newline_free_uint0.
  - change (newline_free ("-" +:+ NilZero.string_of_uint d) = true).
    by apply newline_free_app; [|apply newline_free_uint0].
Qed.

Lemma splitlines_line (l rest : string) :
  newline_free l = true →
  splitlines (l +:+ String newline rest) = l :: splitlines rest.
Proof.
  induction l as [|c l IH]; [done |].
  rewrite string_app_cons. simpl.
  intros [Hc Hl]%andb_true_iff.
  apply negb_true_iff in Hc. rewrite Hc.
  by rewrite (IH Hl).
Qed.

Lemma splitlines_unlines (ls : list string) :
  Forall (λ l, newline_free l = true) ls → splitlines (unlines ls) = ls.
Proof.
  induction 1 as [|l ls Hl _ IH]; simpl; [done |].
  by rewrite splitlines_line, IH.
Qed.

Lemma splitlines_terminated_ne (h : string) :
  splitlines (h +:+ nl) ≠ [].
Proof.
  induction h as [|c h IH]; [done |].
  rewrite string_app_cons. simpl.
  destruct (Ascii.eqb c newline); [done |].
  by destruct (splitlines (h +:+ nl)).
Qed.

(** A first piece of text that ends with a newline splits off, whatever it
    contains. *)
Lemma splitlines_terminated (h rest : string) :
  splitlines (h +:+ String newline rest)
  = splitlines (h +:+ nl) ++ splitlines rest.
Proof.
  induction h as [|c h IH]; [done |].
  rewrite !string_app_cons. simpl.
  destruct (Ascii.eqb c newline); [by rewrite IH |].
  rewrite IH. pose proof (splitlines_terminated_ne h) as Hne.
  by destruct (splitlines (h +:+ nl)).
Qed.

Lemma unlines_app (a b : list string) :
  unlines (a ++ b) = unlines a +:+ unlines b.
Proof.
  induction a as [|l a IH]; [done |].
  change (l +:+ String newline (unlines (a ++ b))
          = (l +:+ String newline (unlines a)) +:+ unlines b).
  by rewrite IH, string_app_assoc.
Qed.

Lemma startswith_comment (c : ascii) (key h : string) :
  c ≠ "#"%char → startswith "#" h = true → startswith (String c key) h = false.
Proof.
  intros Hc. destruct h as [|x h]; cbn [startswith]; [done |].
  rewrite andb_true_r. intros <-%Ascii.eqb_eq.
  apply andb_false_iff. left. by apply Ascii.eqb_neq.
Qed.

Lemma comment_line_startswith (h : string) :
  comment_line h = true → startswith "#" h = true.
Proof. by intros [? _]%andb_true_iff. Qed.

Lemma comment_line_newline_free (h : string) :
  comment_line h = true → newline_free h = true.
Proof. by intros [_ ?]%andb_true_iff. Qed.

Lemma comment_not_norm (h : string) :
  comment_line h = true → norm_line h = false.
Proof.
  intros H%comment_line_startswith. destruct h as [|x h]; [done |].
  cbn [startswith] in H. rewrite andb_true_r in H.
  apply Ascii.eqb_eq in H as <-. done.
Qed.

Lemma comment_not_keyword (key h : string) :
  startswith "#" key = false → key ≠ "" →
  comment_line h = true → keyword_line key h = false.
Proof.
  intros Hk Hne H%comment_line_startswith. unfold keyword_line.
  destruct key as [|c key]; [done |].
  rewrite string_app_cons. apply startswith_comment; [|done].
  intros ->. cbn [startswith] in Hk. by rewrite Ascii.eqb_refl in Hk.
Qed.

(** ** Rules for [emits] *)

Lemma set_fs_id (w : world) : set_fs (fs w) w = w.
Proof. by destruct w. Qed.

Lemma set_fs_set_fs (m m' : gmap string string) (w : world) :
  set_fs m (set_fs m' w) = set_fs m w.
Proof. done. Qed.

Lemma emits_ret {A} (a : A) f : emits (mret a) f [] (Return a).
Proof.
  intros w c Hc. unfold mret, py_ret. simpl.
  by rewrite string_app_nil_r, insert_id, set_fs_id.
Qed.

Lemma emits_raise {A} (e : exn) f : emits (@raise A e) f [] (Raise e).
Proof.
  intros w c Hc. unfold raise. simpl.
  by rewrite string_app_nil_r, insert_id, set_fs_id.
Qed.

Lemma emits_write f (l : string) : emits (write f (l +:+ nl)) f [l] (Return tt).
Proof.
  intros w c Hc. unfold write.
  by rewrite (alter_alt_Some _ _ _ _ Hc).
Qed.

(** A directive: a literal keyword, the formatted value, the newline. *)
Lemma emits_write_directive f (key v : string) :
  emits (write f (key +:+ v +:+ nl)) f [key +:+ v] (Return tt).
Proof. rewrite <- string_app_assoc. apply emits_write. Qed.

Lemma emits_bind {A B} (m : py A) (k : A → py B) f ls1 ls2 a r :
  emits m f ls1 (Return a) → emits (k a) f ls2 r →
  emits (m ≫= k) f (ls1 ++ ls2) r.
Proof.
  intros Hm Hk w c Hc. unfold mbind, py_bind.
  rewrite (Hm w c Hc).
  rewrite (Hk _ (c +:+ unlines ls1)) by (simpl; apply lookup_insert_eq).
  simpl. by rewrite insert_insert_eq, unlines_app, string_app_assoc.
Qed.

Lemma emits_bind_raise {A B} (m : py A) (k : A → py B) f ls e :
  emits m f ls (Raise e) → emits (m ≫= k) f ls (Raise e).
Proof.
  intros Hm w c Hc. unfold mbind, py_bind. by rewrite (Hm w c Hc).
Qed.

Lemma emits_when (b : bool) (m : py unit) f ls :
  emits m f ls (Return tt) →
  emits (when b m) f (if b then ls else []) (Return tt).
Proof. destruct b; [done |]. intros _. apply emits_ret. Qed.

Lemma emits_close f : emits (close f) f [] (Return tt).
Proof. apply emits_ret. Qed.

Lemma emits_eq {A} (m : py A) f ls ls' r r' :
  emits m f ls r → ls = ls' → r = r' → emits m f ls' r'.
Proof. by intros ? <- <-. Qed.

Lemma bind_open_w {B} (path : string) (k : handle → py B) (w : world) :
  (open_w path ≫= k) w = k path (set_fs (<[path := ""]> (fs w)) w).
Proof. done. Qed.

Ltac emits_step :=
  first
    [ apply emits_write_directive
    | apply emits_write
    | apply emits_close
    | apply emits_ret
    | apply emits_raise
    | apply emits_when
    | eapply emits_bind; [emits_step | ]
    | eapply emits_bind_raise; emits_step ].

Ltac emits_all := repeat emits_step.

Lemma emits_if (b : bool) (m1 m2 : py unit) f ls1 ls2 :
  emits m1 f ls1 (Return tt) → emits m2 f ls2 (Return tt) →
  emits (if b then m1 else m2) f (if b then ls1 else ls2) (Return tt).
Proof. by destruct b. Qed.

Ltac emits_branch :=
  first [ apply emits_if
        | progress cbn [negb is_None py_lower py_eq_str] ].

(** ** What [write_file] does to the world *)

(** The file at [fn_path] is replaced by the heading and the directive
    lines that were reached; nothing else in the world changes. *)
Lemma write_file_run (self : ModflowPks) (w : world) :
  write_file self w
  = (set_fs (<[fn_path (base self) :=
                 unlines (heading self :: directive_lines self)]> (fs w)) w,
     expected_status self).
Proof.
  unfold write_file. rewrite bind_open_w.
  lazymatch goal with
  | |- ?m _ = _ =>
      assert (emits m (fn_path (base self))
                (heading self :: directive_lines self)
                (expected_status self)) as H
  end.
  { unfold directive_lines, expected_status, trailing_lines, norm_lines,
      partition_lines, l2norm_token, rl2norm_token, lower_error,
      norm_passes, has_lower.
    destruct (l2norm self) as [| b | n | x | s | b];
      (eapply emits_eq; [repeat first [emits_step | emits_branch] | |]);
      cbn [negb is_None is_str is_bytes orb type_name]; try reflexivity.
    all: unfold leading_lines, solver_lines, core_lines, damping_lines,
           relax_lines, fill_lines, closure_lines, report_lines.
    all: destruct (mpi self); repeat case_bool_decide; try reflexivity.
    all: repeat match goal with
           | |- context [if ?c then _ else _] => destruct c
           end; reflexivity. }
  rewrite (H _ "") by (simpl; apply lookup_insert_eq).
  simpl. by rewrite insert_insert_eq.
Qed.

Lemma file_content_eq (self : ModflowPks) (w : world) :
  file_content self w = unlines (heading self :: directive_lines self).
Proof.
  unfold file_content. rewrite write_file_run. simpl.
  by rewrite lookup_insert_eq.
Qed.

Lemma write_status_eq (self : ModflowPks) (w : world) :
  write_status self w = expected_status self.
Proof. unfold write_status. by rewrite write_file_run. Qed.

Ltac newline_free_line :=
  first
    [ reflexivity
    | apply newline_free_app;
      [ reflexivity
      | first [apply newline_free_int | apply newline_free_float] ] ].

Ltac newline_free_lines :=
  repeat first
    [ apply Forall_nil_2
    | apply Forall_cons_2; [newline_free_line | ]
    | apply Forall_app_2
    | case_bool_decide
    | match goal with |- context [if ?c then _ else _] => destruct c end ].

Lemma directive_lines_newline_free (self : ModflowPks) :
  Forall (λ l, newline_free l = true) (directive_lines self).
Proof.
  unfold directive_lines, leading_lines, trailing_lines, solver_lines,
    core_lines, damping_lines, relax_lines, fill_lines, closure_lines,
    norm_lines, report_lines, partition_lines.
  destruct (l2norm self);
    cbn [norm_passes has_lower is_None is_str is_bytes orb];
    newline_free_lines.
Qed.

(** With a one-line heading the lines of the file are the heading and the
    directive lines. *)
Lemma file_lines_eq (self : ModflowPks) (w : world) :
  comment_line (heading self) = true →
  file_lines self w = heading self :: directive_lines self.
Proof.
  intros Hh%comment_line_newline_free.
  unfold file_lines. rewrite file_content_eq.
  apply splitlines_unlines. apply Forall_cons_2; [done |].
  apply directive_lines_newline_free.
Qed.

(** Whatever the heading holds, the directive lines come last. *)
Lemma file_lines_split (self : ModflowPks) (w : world) :
  file_lines self w
  = splitlines (heading self +:+ nl) ++ directive_lines self.
Proof.
  unfold file_lines. rewrite file_content_eq.
  cbn [unlines]. rewrite splitlines_terminated.
  by rewrite (splitlines_unlines _ (directive_lines_newline_free self)).
Qed.

(** ** Selecting lines of one kind *)

Lemma filter_directive_lines (p : string → bool) (self : ModflowPks) :
  List.filter p (directive_lines self)
  = List.filter p (solver_lines self) ++ List.filter p (core_lines self)
    ++ List.filter p (damping_lines self) ++ List.filter p (relax_lines self)
    ++ List.filter p (fill_lines self) ++ List.filter p (closure_lines self)
    ++ (if norm_passes (l2norm self)
        then List.filter p (norm_lines self)
             ++ List.filter p (report_lines self)
             ++ List.filter p (partition_lines self)
             ++ List.filter p ["END"]
        else []).
Proof.
  unfold directive_lines, leading_lines, trailing_lines.
  destruct (norm_passes (l2norm self)); rewrite !List.filter_app;
    cbn [List.filter]; by rewrite <- ?app_assoc.
Qed.

Ltac split_cases :=
  repeat first
    [ case_bool_decide
    | match goal with
      | |- context [match ?v with PyNone => _ | _ => _ end] => destruct v
      | |- context [if ?c then _ else _] => destruct c
      end ].

(** [pick G v]: the lines selected in group [G] are [v]. *)
Ltac pick G v :=
  match goal with
  | |- context [List.filter ?p (G ?self)] =>
      replace (List.filter p (G self)) with v
        by (unfold G; split_cases; reflexivity)
  end.

Ltac drop G := pick G (@nil string).

Ltac tidy_lists :=
  repeat match goal with
    | |- context [List.filter ?p ["END"]] =>
        change (List.filter p ["END"]) with (@nil string)
    end;
  cbn [app];
  repeat match goal with
    | |- context [if ?c then [] else []] =>
        replace (if c then [] else []) with (@nil string) by (by destruct c)
    end;
  cbn [app]; rewrite ?app_nil_r.

Lemma filter_relax (self : ModflowPks) (w : world) :
  comment_line (heading self) = true →
  List.filter (keyword_line "RELAX") (file_lines self w) = relax_lines self.
Proof.
  intros Hh. rewrite (file_lines_eq _ _ Hh). cbn [List.filter].
  rewrite (comment_not_keyword "RELAX") by first [reflexivity | done].
  rewrite filter_directive_lines.
  drop solver_lines. drop core_lines. drop damping_lines.
  pick relax_lines (relax_lines self).
  drop fill_lines. drop closure_lines. drop norm_lines. drop report_lines.
  drop partition_lines. by tidy_lists.
Qed.

Ltac select_lines key Hh :=
  rewrite (file_lines_eq _ _ Hh); cbn [List.filter];
  rewrite (comment_not_keyword key) by first [reflexivity | done];
  rewrite filter_directive_lines.

Lemma filter_ncoresm (self : ModflowPks) (w : world) :
  comment_line (heading self) = true →
  List.filter (keyword_line "NCORESM") (file_lines self w)
  = if bool_decide (ncoresm self > 1)
    then ["NCORESM " +:+ format (ncoresm self)] else [].
Proof.
  intros Hh. select_lines "NCORESM" Hh.
  drop solver_lines.
  pick core_lines (if bool_decide (ncoresm self > 1)
                   then ["NCORESM " +:+ format (ncoresm self)] else []).
  drop damping_lines. drop relax_lines. drop fill_lines. drop closure_lines.
  drop norm_lines. drop report_lines. drop partition_lines. by tidy_lists.
Qed.

Lemma filter_ncoresv (self : ModflowPks) (w : world) :
  comment_line (heading self) = true →
  List.filter (keyword_line "NCORESV") (file_lines self w)
  = if bool_decide (ncoresv self > 1)
    then ["NCORESV " +:+ format (ncoresv self)] else [].
Proof.
  intros Hh. select_lines "NCORESV" Hh.
  drop solver_lines.
  pick core_lines (if bool_decide (ncoresv self > 1)
                   then ["NCORESV " +:+ format (ncoresv self)] else []).
  drop damping_lines. drop relax_lines. drop fill_lines. drop closure_lines.
  drop norm_lines. drop report_lines. drop partition_lines. by tidy_lists.
Qed.

Lemma filter_ifill (self : ModflowPks) (w : world) :
  comment_line (heading self) = true →
  List.filter (keyword_line "IFILL") (file_lines self w)
  = if bool_decide (npc self = 3)
    then ["IFILL " +:+ format (ifill self)] else [].
Proof.
  intros Hh. select_lines "IFILL" Hh.
  drop solver_lines. drop core_lines. drop damping_lines. drop relax_lines.
  pick fill_lines (if bool_decide (npc self = 3)
                   then ["IFILL " +:+ format (ifill self)] else []).
  drop closure_lines. drop norm_lines. drop report_lines.
  drop partition_lines. by tidy_lists.
Qed.

Lemma filter_droptol (self : ModflowPks) (w : world) :
  comment_line (heading self) = true →
  List.filter (keyword_line "DROPTOL") (file_lines self w)
  = if bool_decide (npc self = 3)
    then ["DROPTOL " +:+ format (droptol self)] else [].
Proof.
  intros Hh. select_lines "DROPTOL" Hh.
  drop solver_lines. drop core_lines. drop damping_lines. drop relax_lines.
  pick fill_lines (if bool_decide (npc self = 3)
                   then ["DROPTOL " +:+ format (droptol self)] else []).
  drop closure_lines. drop norm_lines. drop report_lines.
  drop partition_lines. by tidy_lists.
Qed.

Lemma filter_norm (self : ModflowPks) (w : world) :
  comment_line (heading self) = true →
  List.filter norm_line (file_lines self w) = norm_lines self.
Proof.
  intros Hh. rewrite (file_lines_eq _ _ Hh). cbn [List.filter].
  rewrite (comment_not_norm _ Hh), filter_directive_lines.
  drop solver_lines. drop core_lines. drop damping_lines. drop relax_lines.
  drop fill_lines. drop closure_lines.
  pick norm_lines (norm_lines self).
  drop report_lines. drop partition_lines. tidy_lists.
  unfold norm_lines. by destruct (l2norm self).
Qed.

Lemma filter_partition (self : ModflowPks) (w : world) :
  comment_line (heading self) = true →
  List.filter partition_line (file_lines self w)
  = if norm_passes (l2norm self) then partition_lines self else [].
Proof.
  intros Hh. rewrite (file_lines_eq _ _ Hh). cbn [List.filter].
  unfold partition_line at 1.
  rewrite (comment_not_keyword "PARTOPT"),
    (comment_not_keyword "NOVLAPIMPSOL"), (comment_not_keyword "STENIMPSOL"),
    (comment_not_keyword "VERBOSE") by first [reflexivity | done].
  cbn [orb]. rewrite filter_directive_lines.
  drop solver_lines. drop core_lines. drop damping_lines. drop relax_lines.
  drop fill_lines. drop closure_lines. drop norm_lines. drop report_lines.
  pick partition_lines (partition_lines self).
  change (List.filter partition_line ["END"]) with (@nil string).
  cbn [app]. by rewrite app_nil_r.
Qed.

Lemma l2norm_token_iff (s : string) :
  l2norm_token s = true ↔ lower s = "l2norm" ∨ s = "1".
Proof.
  unfold l2norm_token. by rewrite orb_true_iff, !String.eqb_eq.
Qed.

Lemma rl2norm_token_iff (s : string) :
  rl2norm_token s = true ↔ lower s = "rl2norm" ∨ s = "2".
Proof.
  unfold rl2norm_token. by rewrite orb_true_iff, !String.eqb_eq.
Qed.

(** * The conditional lines of the control file *)

(** C1. With the generated one-line comment heading, the file written by
    [write_file] has a RELAX line exactly when [npc > 0]: none for
    [npc <= 0], and for [npc > 0] the single line "RELAX <relax>". *)
Theorem relax_line_iff_npc_positive (self : ModflowPks) (w : world) :
  comment_line (heading self) = true →
  let found := List.filter (keyword_line "RELAX") (file_lines self w) in
  (found ≠ [] ↔ npc self > 0)
  ∧ (npc self ≤ 0 → found = [])
  ∧ (npc self > 0 → found = ["RELAX " +:+ format (relax self)]).
Proof.
  intros Hh found. subst found. rewrite (filter_relax _ _ Hh).
  unfold relax_lines. case_bool_decide; repeat split; try done; lia.
Qed.

Lemma relax_line_iff_npc_positive_witness :
  comment_line (heading (sample_pks 2 1 1 PyNone false)) = true
  ∧ List.filter (keyword_line "RELAX")
      (file_lines (sample_pks 2 1 1 PyNone false) (sample_world "mf2005"))
    = ["RELAX 0.97"].
Proof.
  split; [reflexivity |].
  apply (relax_line_iff_npc_positive
           (sample_pks 2 1 1 PyNone false) (sample_world "mf2005") eq_refl).
  simpl; lia.
Defined.

(** C2. The file has an IFILL line and a DROPTOL line exactly when
    [npc = 3]; they are then written together, IFILL immediately followed by
    DROPTOL, and for [npc <> 3] neither appears. *)
Theorem fill_lines_iff_npc_three (self : ModflowPks) (w : world) :
  comment_line (heading self) = true →
  let ls := file_lines self w in
  (List.filter (keyword_line "IFILL") ls ≠ [] ↔ npc self = 3)
  ∧ (List.filter (keyword_line "DROPTOL") ls ≠ [] ↔ npc self = 3)
  ∧ (npc self = 3 →
       List.filter fill_line ls
         = [ "IFILL " +:+ format (ifill self);
             "DROPTOL " +:+ format (droptol self) ]
       ∧ ∃ pre post,
           ls = pre ++ [ "IFILL " +:+ format (ifill self);
                         "DROPTOL " +:+ format (droptol self) ] ++ post)
  ∧ (npc self ≠ 3 → List.filter fill_line ls = []).
Proof.
  intros Hh ls. subst ls.
  assert (List.filter fill_line (file_lines self w) = fill_lines self) as Hf.
  { rewrite (file_lines_eq _ _ Hh). cbn [List.filter].
    unfold fill_line at 1.
    rewrite (comment_not_keyword "IFILL"), (comment_not_keyword "DROPTOL")
      by first [reflexivity | done].
    cbn [orb]. rewrite filter_directive_lines.
    drop solver_lines. drop core_lines. drop damping_lines. drop relax_lines.
    pick fill_lines (fill_lines self).
    drop closure_lines. drop norm_lines. drop report_lines.
    drop partition_lines. by tidy_lists. }
  rewrite (filter_ifill _ _ Hh), (filter_droptol _ _ Hh), Hf.
  unfold fill_lines. split_and!.
  - by case_bool_decide.
  - by case_bool_decide.
  - intros H3. rewrite bool_decide_eq_true_2 by done. split; [done |].
    rewrite (file_lines_eq _ _ Hh).
    unfold directive_lines, leading_lines, fill_lines.
    rewrite bool_decide_eq_true_2 by done.
    exists (heading self :: solver_lines self ++ core_lines self
            ++ damping_lines self ++ relax_lines self).
    eexists. cbn [app]. f_equal. by rewrite <- !app_assoc.
  - intros H3. by rewrite bool_decide_eq_false_2.
Qed.

Lemma fill_lines_iff_npc_three_witness :
  comment_line (heading (sample_pks 3 1 1 PyNone false)) = true
  ∧ List.filter fill_line
      (file_lines (sample_pks 3 1 1 PyNone false) (sample_world "mf2005"))
    = ["IFILL 0"; "DROPTOL 0.0"].
Proof.
  split; [reflexivity |].
  apply (fill_lines_iff_npc_three
           (sample_pks 3 1 1 PyNone false) (sample_world "mf2005") eq_refl).
  reflexivity.
Defined.

(** C3. At most one norm line is written, chosen by [l2norm]: the line
    "L2NORM" when the field lower-cases to "l2norm" or is the string "1";
    otherwise the line "RELATIVE-L2NORM" when it lower-cases to "rl2norm" or
    is the string "2"; no norm line when the field is [None]. *)
Theorem norm_line_selection (self : ModflowPks) (w : world) :
  comment_line (heading self) = true →
  let found := List.filter norm_line (file_lines self w) in
  (length found ≤ 1)%nat
  ∧ (∀ s, l2norm self = PyStr s →
       lower s = "l2norm" ∨ s = "1" → found = ["L2NORM"])
  ∧ (∀ s, l2norm self = PyStr s →
       ¬ (lower s = "l2norm" ∨ s = "1") →
       lower s = "rl2norm" ∨ s = "2" → found = ["RELATIVE-L2NORM"])
  ∧ (l2norm self = PyNone → found = []).
Proof.
  intros Hh found. subst found. rewrite (filter_norm _ _ Hh).
  unfold norm_lines. split_and!.
  - destruct (l2norm self); simpl; try lia.
    destruct (l2norm_token s), (rl2norm_token s); simpl; lia.
  - intros s -> Ht%l2norm_token_iff. by rewrite Ht.
  - intros s -> Hn Ht%rl2norm_token_iff.
    rewrite Ht. destruct (l2norm_token s) eqn:E; [|done].
    by apply l2norm_token_iff in E.
  - by intros ->.
Qed.

Lemma norm_line_selection_witness :
  comment_line (heading (sample_pks 2 1 1 (PyStr "RL2Norm") false)) = true
  ∧ List.filter norm_line
      (file_lines (sample_pks 2 1 1 (PyStr "RL2Norm") false)
         (sample_world "mf2005"))
    = ["RELATIVE-L2NORM"].
Proof.
  split; [reflexivity |].
  eapply (norm_line_selection
            (sample_pks 2 1 1 (PyStr "RL2Norm") false)
            (sample_world "mf2005") eq_refl).
  - reflexivity.
  - intros [H | H]; discriminate H.
  - left. reflexivity.
Defined.

(** C7. The file has an NCORESM line exactly when [ncoresm > 1] and an
    NCORESV line exactly when [ncoresv > 1]; with both counts at most 1 (the
    defaults are 1) neither line appears. *)
Theorem core_count_lines (self : ModflowPks) (w : world) :
  comment_line (heading self) = true →
  let ls := file_lines self w in
  let m := List.filter (keyword_line "NCORESM") ls in
  let v := List.filter (keyword_line "NCORESV") ls in
  (m ≠ [] ↔ ncoresm self > 1)
  ∧ (v ≠ [] ↔ ncoresv self > 1)
  ∧ (ncoresm self > 1 → m = ["NCORESM " +:+ format (ncoresm self)])
  ∧ (ncoresv self > 1 → v = ["NCORESV " +:+ format (ncoresv self)])
  ∧ (ncoresm self ≤ 1 → ncoresv self ≤ 1 → m = [] ∧ v = []).
Proof.
  intros Hh ls m v. subst ls m v.
  rewrite (filter_ncoresm _ _ Hh), (filter_ncoresv _ _ Hh).
  repeat case_bool_decide; split_and!; try done; lia.
Qed.

Lemma core_count_lines_witness :
  comment_line (heading (sample_pks 2 4 1 PyNone false)) = true
  ∧ List.filter (keyword_line "NCORESM")
      (file_lines (sample_pks 2 4 1 PyNone false) (sample_world "mf2005"))
    = ["NCORESM 4"].
Proof.
  split; [reflexivity |].
  apply (core_count_lines
           (sample_pks 2 4 1 PyNone false) (sample_world "mf2005") eq_refl).
  simpl; lia.
Defined.

(** * A norm field that is not a string *)

Lemma textual_cases (v : pyval) :
  textual v = true ↔ v = PyNone ∨ ∃ s, v = PyStr s.
Proof.
  destruct v; simpl; split; try done; try (intros [? | [? ?]]; done); eauto.
Qed.

Lemma textual_norm_passes (v : pyval) :
  textual v = true → norm_passes v = true.
Proof. by destruct v. Qed.

Lemma directive_lines_passes (self : ModflowPks) :
  norm_passes (l2norm self) = true →
  directive_lines self = leading_lines self ++ trailing_lines self.
Proof. unfold directive_lines. by intros ->. Qed.

Lemma directive_lines_textual (self : ModflowPks) :
  textual (l2norm self) = true →
  directive_lines self = leading_lines self ++ trailing_lines self.
Proof. intros Ht. by apply directive_lines_passes, textual_norm_passes. Qed.

Lemma directive_lines_raises (self : ModflowPks) :
  norm_passes (l2norm self) = false →
  directive_lines self = leading_lines self.
Proof. unfold directive_lines. intros ->. by rewrite app_nil_r. Qed.

Lemma expected_status_textual (self : ModflowPks) :
  textual (l2norm self) = true → expected_status self = Return tt.
Proof.
  intros Ht. unfold expected_status. by rewrite (textual_norm_passes _ Ht).
Qed.

(** C10, as stated: every set norm value that is not a string makes
    [write_file] raise in the norm branch.  This fails for the byte string
    b"l2norm": it has a [lower] method, is equal to no token, and is passed
    over in silence. *)
Lemma non_string_raises_counterexample :
  is_None (l2norm (sample_pks 2 1 1 (PyBytes "l2norm") false)) = false
  ∧ is_str (l2norm (sample_pks 2 1 1 (PyBytes "l2norm") false)) = false
  ∧ ¬ raises_in_norm_branch (sample_pks 2 1 1 (PyBytes "l2norm") false)
        (sample_world "mf2005").
Proof.
  split_and!; [reflexivity | reflexivity |].
  unfold raises_in_norm_branch. intros H. vm_compute in H. discriminate H.
Qed.

(** C10, amended.  When [l2norm] is set to a value without a [lower] method
    (a bool, an int, a float), [write_file] raises the [AttributeError] of
    the failed [lower()]: the file stops after the RCLOSEPKS line, without a
    norm line and without what follows the norm branch.  A set field is
    passed over in silence only if it has a [lower] method, that is, if it
    is a string or a byte string. *)
Theorem norm_without_lower_raises (self : ModflowPks) (w : world) :
  is_None (l2norm self) = false →
  (has_lower (l2norm self) = false →
     raises_in_norm_branch self w
     ∧ file_content self w = unlines (heading self :: leading_lines self)
     ∧ last (file_lines self w) = Some ("RCLOSEPKS " +:+ format (rclose self))
     ∧ (comment_line (heading self) = true →
          List.filter norm_line (file_lines self w) = []))
  ∧ (write_status self w = Return tt → has_lower (l2norm self) = true).
Proof.
  intros Hnone. split.
  - intros Hlow.
    assert (norm_passes (l2norm self) = false) as Ht
      by (unfold norm_passes; by rewrite Hnone, Hlow).
    split_and!.
    + unfold raises_in_norm_branch.
      rewrite write_status_eq. unfold expected_status. by rewrite Ht.
    + by rewrite file_content_eq, (directive_lines_raises _ Ht).
    + rewrite file_lines_split, (directive_lines_raises _ Ht).
      unfold leading_lines, closure_lines.
      rewrite !app_assoc.
      change [ "HCLOSEPKS " +:+ format (hclose self);
               "RCLOSEPKS " +:+ format (rclose self) ]
        with ([ "HCLOSEPKS " +:+ format (hclose self) ]
              ++ [ "RCLOSEPKS " +:+ format (rclose self) ]).
      rewrite app_assoc. apply last_snoc.
    + intros Hh. rewrite (filter_norm _ _ Hh). unfold norm_lines.
      by destruct (l2norm self).
  - rewrite write_status_eq. unfold expected_status, norm_passes.
    rewrite Hnone. cbn [orb]. by destruct (has_lower (l2norm self)).
Qed.

(** A byte string is passed over whatever it spells: the run is the one of
    an unset field. *)
Lemma bytes_norm_skipped (self : ModflowPks) (b : string) (w : world) :
  l2norm self = PyBytes b →
  write_file self w = write_file (set_l2norm PyNone self) w.
Proof.
  intros Hb. rewrite !write_file_run.
  unfold expected_status, directive_lines, trailing_lines, norm_lines.
  cbn [set_l2norm l2norm heading base]. by rewrite Hb.
Qed.

Lemma norm_without_lower_raises_witness :
  is_None (l2norm (sample_pks 2 1 1 (PyInt 1) false)) = false
  ∧ write_status (sample_pks 2 1 1 (PyInt 1) false) (sample_world "mf2005")
    = Raise (AttributeError "'int' object has no attribute 'lower'").
Proof.
  split; [reflexivity |].
  apply (norm_without_lower_raises
           (sample_pks 2 1 1 (PyInt 1) false) (sample_world "mf2005") eq_refl).
  reflexivity.
Defined.

(** * The end of the file *)

(** C9, as stated: every package object gets a file ending in END.  This
    fails for a norm field holding the integer 1: the call raises in the
    norm branch and the last line written is the RCLOSEPKS line. *)
Lemma ends_with_END_counterexample :
  ¬ ends_with_END (sample_pks 2 1 1 (PyInt 1) false) (sample_world "mf2005").
Proof.
  unfold ends_with_END. intros H. vm_compute in H. discriminate H.
Qed.

(** C9, amended.  When [l2norm] is [None] or a string, [write_file] returns
    and the last line of the file is END. *)
Theorem ends_with_END_textual (self : ModflowPks) (w : world) :
  textual (l2norm self) = true →
  write_status self w = Return tt ∧ ends_with_END self w.
Proof.
  intros Ht. split.
  - by rewrite write_status_eq, (expected_status_textual _ Ht).
  - unfold ends_with_END.
    rewrite file_lines_split, (directive_lines_textual _ Ht).
    unfold trailing_lines. rewrite !app_assoc. apply last_snoc.
Qed.

Lemma ends_with_END_textual_witness :
  textual (l2norm (sample_pks 2 1 1 (PyStr "1") true)) = true
  ∧ ends_with_END (sample_pks 2 1 1 (PyStr "1") true) (sample_world "mf2005").
Proof.
  split; [reflexivity |].
  apply (ends_with_END_textual
           (sample_pks 2 1 1 (PyStr "1") true) (sample_world "mf2005") eq_refl).
Defined.

(** * The partition block *)

(** C5, as stated: with the parallel flag set, every package object gets the
    four partition lines.  This fails for a norm field holding the integer
    1: the call raises before the partition block is reached. *)
Lemma partition_block_counterexample :
  comment_line (heading (sample_pks 2 1 1 (PyInt 1) true)) = true
  ∧ mpi (sample_pks 2 1 1 (PyInt 1) true) = true
  ∧ ¬ partition_block (sample_pks 2 1 1 (PyInt 1) true) (sample_world "mf2005").
Proof.
  split_and!; [reflexivity | reflexivity |].
  unfold partition_block. cbn [mpi sample_pks].
  intros [H _]. vm_compute in H. discriminate H.
Qed.

(** C5, amended.  With the parallel flag set and [l2norm] being [None] or a
    string, the file has exactly the four lines PARTOPT, NOVLAPIMPSOL,
    STENIMPSOL, VERBOSE, in that order, right after the MUTPKS line and
    right before END, whatever [partopt] is; without the flag none of the
    four lines appears. *)
Theorem partition_block_textual (self : ModflowPks) (w : world) :
  comment_line (heading self) = true →
  (mpi self = true → textual (l2norm self) = true) →
  partition_block self w.
Proof.
  intros Hh Ht. unfold partition_block.
  rewrite (filter_partition _ _ Hh). unfold partition_lines.
  destruct (mpi self) eqn:Hmpi.
  - specialize (Ht eq_refl). rewrite (textual_norm_passes _ Ht).
    split; [done |].
    rewrite (file_lines_eq _ _ Hh), (directive_lines_textual _ Ht).
    unfold trailing_lines, report_lines, partition_lines. rewrite Hmpi.
    exists (heading self :: leading_lines self ++ norm_lines self
            ++ ["IPRPKS " +:+ format (iprpks self)]).
    cbn [app]. f_equal. by rewrite <- !app_assoc.
  - by destruct (norm_passes (l2norm self)).
Qed.

Lemma partition_block_textual_witness :
  comment_line (heading (sample_pks 2 1 1 PyNone true)) = true
  ∧ (mpi (sample_pks 2 1 1 PyNone true) = true →
     textual (l2norm (sample_pks 2 1 1 PyNone true)) = true)
  ∧ partition_block (sample_pks 2 1 1 PyNone true) (sample_world "mf2005").
Proof.
  split_and!; [reflexivity | reflexivity |].
  apply (partition_block_textual
           (sample_pks 2 1 1 PyNone true) (sample_world "mf2005") eq_refl).
  reflexivity.
Defined.

(** * Unrecognised norm values *)

(** C6, as stated: every set norm value other than the recognised tokens is
    passed over in silence.  This fails for the integer 7, which is no
    token: the call raises. *)
Lemma silently_skipped_counterexample :
  is_None (l2norm (sample_pks 2 1 1 (PyInt 7) false)) = false
  ∧ recognised (l2norm (sample_pks 2 1 1 (PyInt 7) false)) = false
  ∧ ¬ silently_skipped (sample_pks 2 1 1 (PyInt 7) false)
        (sample_world "mf2005").
Proof.
  split_and!; [reflexivity | reflexivity |].
  intros [H _]. vm_compute in H. discriminate H.
Qed.

(** C6, amended.  A norm field set to a string that is none of the
    recognised tokens is passed over in silence: [write_file] returns, no
    norm line is written, and the run is the one of an unset field. *)
Theorem unrecognised_string_skipped (self : ModflowPks) (w : world) (s : string) :
  comment_line (heading self) = true →
  l2norm self = PyStr s →
  recognised (PyStr s) = false →
  silently_skipped self w.
Proof.
  intros Hh Hs Hr. cbn [recognised] in Hr.
  apply orb_false_iff in Hr as [Hl Hrl].
  assert (norm_lines self = []) as Hn
    by (unfold norm_lines; by rewrite Hs, Hl, Hrl).
  unfold silently_skipped. split_and!.
  - rewrite write_status_eq. unfold expected_status. by rewrite Hs.
  - by rewrite (filter_norm _ _ Hh).
  - rewrite !write_file_run.
    unfold expected_status, directive_lines, trailing_lines.
    rewrite Hn, Hs. reflexivity.
Qed.

Lemma unrecognised_string_skipped_witness :
  comment_line (heading (sample_pks 2 1 1 (PyStr "l1norm") false)) = true
  ∧ l2norm (sample_pks 2 1 1 (PyStr "l1norm") false) = PyStr "l1norm"
  ∧ recognised (PyStr "l1norm") = false
  ∧ silently_skipped (sample_pks 2 1 1 (PyStr "l1norm") false)
      (sample_world "mf2005").
Proof.
  split_and!; [reflexivity | reflexivity | reflexivity |].
  apply (unrecognised_string_skipped
           (sample_pks 2 1 1 (PyStr "l1norm") false) (sample_world "mf2005")
           "l1norm" eq_refl eq_refl eq_refl).
Defined.

(** * Construction and the model-version guard *)

Lemma excluded_version_iff (v : string) :
  excluded_version v = true ↔ v = "mf2k" ∨ v = "mfnwt".
Proof.
  unfold excluded_version. by rewrite orb_true_iff, !String.eqb_eq.
Qed.

Lemma excluded_version_false (v : string) :
  v ≠ "mf2k" → v ≠ "mfnwt" → excluded_version v = false.
Proof.
  intros H1 H2. destruct (excluded_version v) eqn:E; [|done].
  apply excluded_version_iff in E as [? | ?]; done.
Qed.

Section Construction.

Variable package_path : Model.Modflow → string → list (option string) → string.
Variable _generate_heading : Model.Modflow → Package → string.

(** The first file name of a non-empty [filenames] argument. *)
Lemma first_filename (kw : Kw.args) :
  Kw.filenames kw ≠ FnList [] →
  ∃ f0,
    match Kw.filenames kw with
    | FnNone => [None]
    | FnStr s => [Some s]
    | FnList l => l
    end !! 0%nat = Some f0.
Proof.
  destruct (Kw.filenames kw) as [| s | [| f0 l]]; intros H; try done; eauto.
Qed.

(** C4. Construction on a host model of version "mf2k" or "mfnwt" raises an
    exception whose message names the package and the version, and leaves
    the world as it was: no file is written and the package list is
    untouched.  With any other version it returns the new instance, which
    has been appended to the package list of the model. *)
Theorem init_version_guard (kw : Kw.args) (w : world) :
  Kw.filenames kw ≠ FnList [] →
  (Model.version (host w) = "mf2k" ∨ Model.version (host w) = "mfnwt" →
     __init__ package_path _generate_heading kw w
     = (w, Raise (Exception
                    ("Error: cannot use ['PKS'] package with model version "
                     +:+ Model.version (host w)))))
  ∧ (Model.version (host w) ≠ "mf2k" → Model.version (host w) ≠ "mfnwt" →
     ∃ pks w',
       __init__ package_path _generate_heading kw w = (w', Return pks)
       ∧ fs w' = fs w
       ∧ stdout w' = stdout w
       ∧ Model.version (host w') = Model.version (host w)
       ∧ Model.packagelist (host w')
         = Model.packagelist (host w) ++ [pks]).
Proof.
  intros [f0 Hf0]%first_filename.
  unfold __init__, getitem, mbind, py_bind, get_host. rewrite Hf0.
  fold (excluded_version (Model.version (host w))).
  split.
  - intros Hv%excluded_version_iff. unfold mret, py_ret. by rewrite Hv.
  - intros H1 H2.
    unfold mret, py_ret. rewrite (excluded_version_false _ H1 H2).
    unfold add_package. eauto 10.
Qed.

End Construction.

Lemma init_version_guard_witness :
  Kw.filenames Kw.defaults ≠ FnList []
  ∧ __init__ sample_path sample_heading Kw.defaults (sample_world "mfnwt")
    = (sample_world "mfnwt",
       Raise (Exception
                "Error: cannot use ['PKS'] package with model version mfnwt")).
Proof.
  split; [discriminate |].
  apply (init_version_guard sample_path sample_heading
           Kw.defaults (sample_world "mfnwt")); [discriminate |].
  right. reflexivity.
Defined.

(** * The [load] stub *)

(** C8, as stated: [load] returns a default package for every file and every
    host model.  This fails on a model of version "mf2k": the warning is
    printed, and then the constructor raises. *)
Lemma load_default_result_counterexample :
  readable (FileName "old.pks") (sample_world "mf2k")
  ∧ ¬ load_default_result sample_path sample_heading unit sample_resolve
        (FileName "old.pks") None (sample_world "mf2k").
Proof.
  split; [by eexists |].
  intros (pks & w' & H & _). vm_compute in H. discriminate H.
Qed.

Section Load.

Variable package_path : Model.Modflow → string → list (option string) → string.
Variable _generate_heading : Model.Modflow → Package → string.
Variable ExtUnitDict : Type.
Variable get_ext_dict_attr :
  Model.Modflow → ExtUnitDict → string → option Z * option string.

Lemma open_r_readable (path : string) (w : world) :
  readable (FileName path) w → open_r path w = (w, Return path).
Proof. intros [c Hc]. unfold open_r. simpl in Hc. by rewrite Hc. Qed.

(** C8, amended.  For a file that can be read and a host model whose
    version is neither "mf2k" nor "mfnwt", [load] prints the warning and
    returns a package whose tuning parameters are the defaults, whatever the
    file holds; without a table it is bound to unit 27, with a table to the
    unit and file name the table resolves for "PKS" (unit 27 if it resolves
    no unit). *)
Theorem load_returns_defaults (f : file_arg) (d : option ExtUnitDict)
    (w : world) :
  readable f w →
  excluded_version (Model.version (host w)) = false →
  load_default_result package_path _generate_heading ExtUnitDict
    get_ext_dict_attr f d w.
Proof.
  intros Hf Hv. unfold load_default_result, load.
  unfold mbind, py_bind, get_host.
  destruct (Model.verbose (host w)) eqn:Hverb;
    destruct f as [path | h];
    cbn [when stdout_write print close hasattr_read negb mret py_ret];
    rewrite ?open_r_readable by done;
    cbn [when stdout_write print close hasattr_read negb mret py_ret].
  all: destruct d as [table |];
    [destruct (get_ext_dict_attr _ table _ftype) as [u fn] eqn:Hres;
     unfold _ftype in Hres |].
  all: unfold __init__, getitem, mbind, py_bind, get_host, mret, py_ret,
         add_package;
    cbn [lookup list_lookup Kw.only_unit_and_files Kw.filenames
         Kw.unitnumber set_stdout host];
    fold (excluded_version (Model.version (host w))); rewrite Hv.
  all: do 2 eexists; split; [reflexivity |].
  all: unfold tuning_defaults, load_warning; cbn; rewrite ?Hres;
    rewrite ?string_app_nil_r, ?string_app_assoc; split_and!; done.
Qed.

(** On an excluded version [load] still prints the warning, and then fails
    in the constructor without touching files or the package list. *)
Lemma load_excluded_version_raises (f : file_arg) (d : option ExtUnitDict)
    (w : world) :
  readable f w →
  excluded_version (Model.version (host w)) = true →
  ∃ w',
    load package_path _generate_heading ExtUnitDict get_ext_dict_attr f d w
    = (w', Raise (Exception
                    ("Error: cannot use ['PKS'] package with model version "
                     +:+ Model.version (host w))))
    ∧ fs w' = fs w
    ∧ host w' = host w
    ∧ stdout w' =
        stdout w
        +:+ (if Model.verbose (host w)
             then "loading pks package file..." +:+ nl else "")
        +:+ load_warning.
Proof.
  intros Hf Hv. unfold load, mbind, py_bind, get_host.
  destruct (Model.verbose (host w)) eqn:Hverb;
    destruct f as [path | h];
    cbn [when stdout_write print close hasattr_read negb mret py_ret];
    rewrite ?open_r_readable by done;
    cbn [when stdout_write print close hasattr_read negb mret py_ret].
  all: destruct d as [table |];
    [destruct (get_ext_dict_attr _ table _ftype) as [u fn] |].
  all: unfold __init__, getitem, mbind, py_bind, get_host, mret, py_ret;
    cbn [lookup list_lookup Kw.only_unit_and_files Kw.filenames
         Kw.unitnumber set_stdout host];
    fold (excluded_version (Model.version (host w))); rewrite Hv.
  all: eexists; split; [reflexivity |].
  all: unfold load_warning; cbn;
    rewrite ?string_app_nil_r, ?string_app_assoc; split_and!; done.
Qed.

End Load.

Lemma load_returns_defaults_witness :
  readable (FileName "old.pks") (sample_world "mf2005")
  ∧ excluded_version (Model.version (host (sample_world "mf2005"))) = false
  ∧ load_default_result sample_path sample_heading unit sample_resolve
      (FileName "old.pks") (Some tt) (sample_world "mf2005").
Proof.
  split_and!; [by eexists | reflexivity |].
  apply (load_returns_defaults sample_path sample_heading unit sample_resolve
           (FileName "old.pks") (Some tt) (sample_world "mf2005"));
    [by eexists | reflexivity].
Defined.

(** * Two runs, in full *)

(** The file of a default package on a model of version "mf2005". *)
Example default_file_text :
  file_lines (sample_pks 2 1 1 PyNone false) (sample_world "mf2005")
  = [ "# PKS package for mf2005"; "MXITER 100"; "INNERIT 50"; "ISOLVER 1";
      "NPC 2"; "ISCL 0"; "IORD 0"; "DAMP 1.0"; "DAMPT 1.0"; "RELAX 0.97";
      "HCLOSEPKS 0.001"; "RCLOSEPKS 0.1"; "IPRPKS 0"; "MUTPKS 3"; "END" ].
Proof. vm_compute. reflexivity. Qed.

(** Every conditional line at once: [npc = 3], four and two cores, a norm
    token in upper case, the parallel flag. *)
Example full_file_text :
  file_lines (sample_pks 3 4 2 (PyStr "L2NORM") true) (sample_world "mf2005")
  = [ "# PKS package for mf2005"; "MXITER 100"; "INNERIT 50"; "ISOLVER 1";
      "NPC 3"; "ISCL 0"; "IORD 0"; "NCORESM 4"; "NCORESV 2"; "DAMP 1.0";
      "DAMPT 1.0"; "RELAX 0.97"; "IFILL 0"; "DROPTOL 0.0";
      "HCLOSEPKS 0.001"; "RCLOSEPKS 0.1"; "L2NORM"; "IPRPKS 0"; "MUTPKS 3";
      "PARTOPT 1"; "NOVLAPIMPSOL 1"; "STENIMPSOL 2"; "VERBOSE 0"; "END" ].
Proof. vm_compute. reflexivity. Qed.

(** The constructor followed by [write_file], on the sample host. *)
Example construct_then_write :
  (p ← __init__ sample_path sample_heading Kw.defaults; write_file p)
    (sample_world "mf2005")
  = (set_host
       {| Model.version := "mf2005"; Model.verbose := true;
          Model.packagelist :=
            [ {| base := {| extension := "pks"; name := ["PKS"];
                            unit_number := [27]; extra := [EmptyString];
                            file_name := [None];
                            fn_path := "modflowtest.pks" |};
                 heading := "# PKS package for mf2005";
                 url := "pks.htm";
                 mxiter := 100; innerit := 50; isolver := 1; npc := 2;
                 iscl := 0; iord := 0; ncoresm := 1; ncoresv := 1;
                 damp := float_lit "1.0" eq_refl;
                 dampt := float_lit "1.0" eq_refl;
                 relax := float_lit "0.97" eq_refl;
                 ifill := 0;
                 droptol := float_lit "0.0" eq_refl;
                 hclose := float_lit "0.001" eq_refl;
                 rclose := float_lit "0.1" eq_refl;
                 l2norm := PyNone; iprpks := 0; mutpks := 3; mpi := false;
                 partopt := 0; novlapimpsol := 1; stenimpsol := 2;
                 verbose := 0; partdata := PyNone |} ] |}
       (set_fs
          (<["modflowtest.pks" :=
               unlines [ "# PKS package for mf2005"; "MXITER 100";
                         "INNERIT 50"; "ISOLVER 1"; "NPC 2"; "ISCL 0";
                         "IORD 0"; "DAMP 1.0"; "DAMPT 1.0"; "RELAX 0.97";
                         "HCLOSEPKS 0.001"; "RCLOSEPKS 0.1"; "IPRPKS 0";
                         "MUTPKS 3"; "END" ]]>
             (fs (sample_world "mf2005")))
          (sample_world "mf2005")),
     Return tt).
Proof. vm_compute. reflexivity. Qed.

(** * Further properties of [write_file] *)

(** ** The directives that are always written *)

Lemma comment_not_fixed (h : string) :
  comment_line h = true → fixed_line h = false.
Proof.
  intros Hh. unfold fixed_line, fixed_keys. cbn [existsb].
  rewrite (comment_not_keyword "MXITER"), (comment_not_keyword "INNERIT"),
    (comment_not_keyword "ISOLVER"), (comment_not_keyword "NPC"),
    (comment_not_keyword "ISCL"), (comment_not_keyword "IORD"),
    (comment_not_keyword "DAMP"), (comment_not_keyword "DAMPT"),
    (comment_not_keyword "HCLOSEPKS"), (comment_not_keyword "RCLOSEPKS")
    by first [reflexivity | done].
  reflexivity.
Qed.

Lemma filter_fixed (self : ModflowPks) (w : world) :
  comment_line (heading self) = true →
  List.filter fixed_line (file_lines self w)
  = solver_lines self ++ damping_lines self ++ closure_lines self.
Proof.
  intros Hh. rewrite (file_lines_eq _ _ Hh). cbn [List.filter].
  rewrite (comment_not_fixed _ Hh), filter_directive_lines.
  pick solver_lines (solver_lines self). drop core_lines.
  pick damping_lines (damping_lines self).
  drop relax_lines. drop fill_lines.
  pick closure_lines (closure_lines self).
  drop norm_lines. drop report_lines. drop partition_lines.
  by tidy_lists.
Qed.

Lemma filter_report (self : ModflowPks) (w : world) :
  comment_line (heading self) = true →
  List.filter report_line (file_lines self w)
  = if norm_passes (l2norm self) then report_lines self else [].
Proof.
  intros Hh. rewrite (file_lines_eq _ _ Hh). cbn [List.filter].
  unfold report_line at 1.
  rewrite (comment_not_keyword "IPRPKS"), (comment_not_keyword "MUTPKS")
    by first [reflexivity | done].
  cbn [orb]. rewrite filter_directive_lines.
  drop solver_lines. drop core_lines. drop damping_lines. drop relax_lines.
  drop fill_lines. drop closure_lines. drop norm_lines.
  pick report_lines (report_lines self). drop partition_lines.
  change (List.filter report_line ["END"]) with (@nil string).
  cbn [app]. by rewrite !app_nil_r.
Qed.

(** X1. The ten directives written without a test (MXITER to IORD, DAMP,
    DAMPT, HCLOSEPKS, RCLOSEPKS) are in the file exactly once each, in this
    order and with the value of their field, also when the norm branch
    raises afterwards; IPRPKS and MUTPKS follow exactly once each when the
    norm branch does not raise (the field is unset or has a [lower]
    method), and are absent when it does. *)
Theorem fixed_directives_once (self : ModflowPks) (w : world) :
  comment_line (heading self) = true →
  List.filter fixed_line (file_lines self w)
  = [ "MXITER " +:+ format (mxiter self);
      "INNERIT " +:+ format (innerit self);
      "ISOLVER " +:+ format (isolver self);
      "NPC " +:+ format (npc self);
      "ISCL " +:+ format (iscl self);
      "IORD " +:+ format (iord self);
      "DAMP " +:+ format (damp self);
      "DAMPT " +:+ format (dampt self);
      "HCLOSEPKS " +:+ format (hclose self);
      "RCLOSEPKS " +:+ format (rclose self) ]
  ∧ List.filter report_line (file_lines self w)
    = if norm_passes (l2norm self)
      then [ "IPRPKS " +:+ format (iprpks self);
             "MUTPKS " +:+ format (mutpks self) ]
      else [].
Proof.
  intros Hh. by rewrite (filter_fixed _ _ Hh), (filter_report _ _ Hh).
Qed.

Lemma fixed_directives_once_witness :
  comment_line (heading (sample_pks 3 4 2 (PyInt 1) true)) = true
  ∧ List.filter fixed_line
      (file_lines (sample_pks 3 4 2 (PyInt 1) true) (sample_world "mf2005"))
    = [ "MXITER 100"; "INNERIT 50"; "ISOLVER 1"; "NPC 3"; "ISCL 0";
        "IORD 0"; "DAMP 1.0"; "DAMPT 1.0"; "HCLOSEPKS 0.001";
        "RCLOSEPKS 0.1" ].
Proof.
  split; [reflexivity |].
  apply (fixed_directives_once
           (sample_pks 3 4 2 (PyInt 1) true) (sample_world "mf2005") eq_refl).
Defined.

(** ** What can be read back from the file *)








(** ** What [write_file] leaves alone *)

(** X3. [write_file] replaces the file at [fn_path] and touches nothing
    else: standard output, the host model and every other file are as
    before, whether it returns or raises; and neither the new contents nor
    the outcome depend on the world it is run in, in particular not on what
    the file held before. *)
Theorem write_file_frame (self : ModflowPks) (w w' : world) :
  let w1 := (write_file self w).1 in
  stdout w1 = stdout w
  ∧ host w1 = host w
  ∧ (∀ path, path ≠ fn_path (base self) → fs w1 !! path = fs w !! path)
  ∧ fs w1 !! fn_path (base self) = Some (file_content self w)
  ∧ file_content self w = file_content self w'
  ∧ write_status self w = write_status self w'.
Proof.
  intros w1. subst w1. rewrite !write_status_eq, !file_content_eq.
  rewrite write_file_run. simpl. split_and!; try done.
  - intros path Hp. by rewrite lookup_insert_ne.
  - by rewrite lookup_insert_eq.
Qed.

(** X4. Writing twice is writing once: a second [write_file] on the world
    left by the first gives the same world and the same outcome. *)
Theorem write_file_idempotent (self : ModflowPks) (w : world) :
  write_file self (write_file self w).1 = write_file self w.
Proof.
  rewrite !write_file_run. simpl. by rewrite insert_insert_eq.
Qed.

(** ** The letter case of the norm field *)

Lemma lower_ascii_idemp (c : ascii) : lower_ascii (lower_ascii c) = lower_ascii c.
Proof. destruct c as [[] [] [] [] [] [] [] []]; reflexivity. Qed.

Lemma lower_idemp (s : string) : lower (lower s) = lower s.
Proof.
  induction s as [|c s IH]; [done |].
  cbn [lower]. by rewrite lower_ascii_idemp, IH.
Qed.

Lemma lower_ascii_digit (c d : ascii) :
  lower_ascii d = d → (∀ x, lower_ascii x = d → x = d) →
  Ascii.eqb (lower_ascii c) d = Ascii.eqb c d.
Proof.
  intros Hd Hinv. destruct (Ascii.eqb_spec c d) as [-> | Hne].
  - rewrite Hd. apply Ascii.eqb_refl.
  - apply Ascii.eqb_neq. intros H. by apply Hne, Hinv.
Qed.

Lemma lower_ascii_one (x : ascii) : lower_ascii x = "1"%char → x = "1"%char.
Proof. destruct x as [[] [] [] [] [] [] [] []]; vm_compute; congruence. Qed.

Lemma lower_ascii_two (x : ascii) : lower_ascii x = "2"%char → x = "2"%char.
Proof. destruct x as [[] [] [] [] [] [] [] []]; vm_compute; congruence. Qed.

Lemma lower_eqb_one (s : string) : String.eqb (lower s) "1" = String.eqb s "1".
Proof.
  destruct s as [|c [|c' s]]; [done | |].
  - cbn [lower String.eqb].
    by rewrite (lower_ascii_digit c "1" eq_refl lower_ascii_one).
  - cbn [lower String.eqb].
    by rewrite (lower_ascii_digit c "1" eq_refl lower_ascii_one).
Qed.

Lemma lower_eqb_two (s : string) : String.eqb (lower s) "2" = String.eqb s "2".
Proof.
  destruct s as [|c [|c' s]]; [done | |].
  - cbn [lower String.eqb].
    by rewrite (lower_ascii_digit c "2" eq_refl lower_ascii_two).
  - cbn [lower String.eqb].
    by rewrite (lower_ascii_digit c "2" eq_refl lower_ascii_two).
Qed.

(** X5. The norm field is read without regard to letter case: a string and
    its lower-case form give the same run of [write_file] (same world, same
    outcome). *)
Theorem norm_case_insensitive (self : ModflowPks) (s : string) (w : world) :
  write_file (set_l2norm (PyStr (lower s)) self) w
  = write_file (set_l2norm (PyStr s) self) w.
Proof.
  rewrite !write_file_run.
  unfold expected_status, directive_lines, trailing_lines, norm_lines,
    l2norm_token, rl2norm_token.
  cbn [set_l2norm l2norm heading base textual is_None is_str orb].
  by rewrite lower_idemp, lower_eqb_one, lower_eqb_two.
Qed.

(** ** The partition attributes *)

(** X6. Without the parallel flag the partition attributes are not looked
    at: assigning any values to [partopt], [novlapimpsol], [stenimpsol],
    [verbose] and [partdata] leaves the run of [write_file] unchanged. *)
Theorem partition_ignored_without_mpi (self : ModflowPks)
    (po no st ve : Z) (pd : pyval) (w : world) :
  mpi self = false →
  write_file (set_partition po no st ve pd self) w = write_file self w.
Proof.
  intros Hmpi. rewrite !write_file_run.
  unfold expected_status, directive_lines, trailing_lines, partition_lines.
  cbn [set_partition mpi l2norm heading base]. by rewrite Hmpi.
Qed.

Lemma partition_ignored_without_mpi_witness :
  mpi (sample_pks 2 1 1 PyNone false) = false
  ∧ write_file
      (set_partition 2 0 5 9 (PyStr "parts") (sample_pks 2 1 1 PyNone false))
      (sample_world "mf2005")
    = write_file (sample_pks 2 1 1 PyNone false) (sample_world "mf2005").
Proof.
  split; [reflexivity |].
  apply (partition_ignored_without_mpi
           (sample_pks 2 1 1 PyNone false) 2 0 5 9 (PyStr "parts")
           (sample_world "mf2005") eq_refl).
Defined.

(** X7. [partdata] is never written: assigning any value to it leaves the
    run of [write_file] unchanged, with or without the parallel flag. *)
Theorem partdata_never_written (self : ModflowPks) (pd : pyval) (w : world) :
  write_file
    (set_partition (partopt self) (novlapimpsol self) (stenimpsol self)
       (verbose self) pd self) w
  = write_file self w.
Proof.
  rewrite !write_file_run.
  unfold expected_status, directive_lines, trailing_lines, partition_lines.
  by cbn [set_partition mpi l2norm heading base partopt novlapimpsol
          stenimpsol verbose].
Qed.

(** * Further properties of the constructor and of [load] *)

Section ConstructionAndLoad.

Variable package_path : Model.Modflow → string → list (option string) → string.
Variable _generate_heading : Model.Modflow → Package → string.
Variable ExtUnitDict : Type.
Variable get_ext_dict_attr :
  Model.Modflow → ExtUnitDict → string → option Z * option string.

(** X8. An empty list of file names makes the constructor fail with
    [IndexError] at [filenames[0]], before the model version is looked at:
    the world is unchanged, also on a model of an excluded version. *)
Theorem init_empty_filenames (kw : Kw.args) (w : world) :
  Kw.filenames kw = FnList [] →
  __init__ package_path _generate_heading kw w
  = (w, Raise (IndexError "list index out of range")).
Proof.
  intros Hfn. unfold __init__, getitem, mbind, py_bind, get_host.
  by rewrite Hfn.
Qed.

(** X9. Leaving out [unitnumber] is passing 27; leaving out [filenames] is
    passing a list holding [None]; a single string is a list of one name;
    and of a longer list only the first name is used. *)
Theorem init_argument_defaults (kw : Kw.args) (u : option Z)
    (fn : filenames_arg) (s : string) (f0 : option string)
    (rest : list (option string)) (w : world) :
  __init__ package_path _generate_heading (with_unit_and_files None fn kw) w
  = __init__ package_path _generate_heading
      (with_unit_and_files (Some 27) fn kw) w
  ∧ __init__ package_path _generate_heading
      (with_unit_and_files u FnNone kw) w
    = __init__ package_path _generate_heading
        (with_unit_and_files u (FnList [None]) kw) w
  ∧ __init__ package_path _generate_heading
      (with_unit_and_files u (FnStr s) kw) w
    = __init__ package_path _generate_heading
        (with_unit_and_files u (FnList [Some s]) kw) w
  ∧ __init__ package_path _generate_heading
      (with_unit_and_files u (FnList (f0 :: rest)) kw) w
    = __init__ package_path _generate_heading
        (with_unit_and_files u (FnList [f0]) kw) w.
Proof. split_and!; reflexivity. Qed.

(** The run of [load] on a file that can be read and a model of an accepted
    version, in full. *)
Lemma load_run (f : file_arg) (d : option ExtUnitDict) (w : world) :
  readable f w →
  excluded_version (Model.version (host w)) = false →
  ∃ pks w1,
    load package_path _generate_heading ExtUnitDict get_ext_dict_attr f d w
    = (w1, Return pks)
    ∧ tuning_defaults pks
    ∧ heading pks = _generate_heading (host w) (base pks)
    ∧ fs w1 = fs w
    ∧ Model.packagelist (host w1) = Model.packagelist (host w) ++ [pks].
Proof.
  intros Hf Hv. unfold load, mbind, py_bind, get_host.
  destruct (Model.verbose (host w)) eqn:Hverb;
    destruct f as [path | h];
    cbn [when stdout_write print close hasattr_read negb mret py_ret];
    rewrite ?open_r_readable by done;
    cbn [when stdout_write print close hasattr_read negb mret py_ret].
  all: destruct d as [table |];
    [destruct (get_ext_dict_attr _ table _ftype) as [u fn] |].
  all: unfold __init__, getitem, mbind, py_bind, get_host, mret, py_ret,
         add_package;
    cbn [lookup list_lookup Kw.only_unit_and_files Kw.filenames
         Kw.unitnumber set_stdout host];
    fold (excluded_version (Model.version (host w))); rewrite Hv.
  all: do 2 eexists; split; [reflexivity |].
  all: unfold tuning_defaults; cbn; split_and!; done.
Qed.

(** X10. Loading and writing back loses the file: for a file that can be
    read and a model of an accepted version, [load] followed by
    [write_file] returns, and the file written holds the generated heading
    and the directives of the default arguments, whatever the loaded file
    held and whatever the table resolves. *)
Theorem load_then_write_file (f : file_arg) (d : option ExtUnitDict)
    (w : world) :
  readable f w →
  excluded_version (Model.version (host w)) = false →
  ∃ pks w1,
    load package_path _generate_heading ExtUnitDict get_ext_dict_attr f d w
    = (w1, Return pks)
    ∧ write_status pks w1 = Return tt
    ∧ file_content pks w1
      = unlines (_generate_heading (host w) (base pks) :: default_directives).
Proof.
  intros Hf Hv.
  destruct (load_run f d w Hf Hv) as (pks & w1 & Hload & Hdef & Hh & _ & _).
  exists pks, w1. split; [done |].
  rewrite write_status_eq, file_content_eq, <- Hh.
  unfold tuning_defaults in Hdef.
  destruct Hdef as (E1 & E2 & E3 & E4 & E5 & E6 & E7 & E8 & E9 & E10 & E11
    & E12 & E13 & E14 & E15 & E16 & E17 & E18 & E19 & _).
  unfold expected_status, directive_lines, leading_lines, trailing_lines,
    solver_lines, core_lines, damping_lines, relax_lines, fill_lines,
    closure_lines, norm_lines, report_lines, partition_lines.
  rewrite E1, E2, E3, E4, E5, E6, E7, E8, E9, E10, E11, E13, E14, E15, E16,
    E17, E18, E19.
  split; reflexivity.
Qed.

(** X11. A file name that names no file makes [load] fail with
    [FileNotFoundError] at [open]: the loading message has been written if
    the model is verbose, the warning has not, and files and package list
    are unchanged. *)
Theorem load_missing_file (path : string) (d : option ExtUnitDict)
    (w : world) :
  fs w !! path = None →
  load package_path _generate_heading ExtUnitDict get_ext_dict_attr
    (FileName path) d w
  = (set_stdout
       (stdout w +:+ (if Model.verbose (host w)
                      then "loading pks package file..." +:+ nl else ""))
       w,
     Raise (FileNotFoundError path)).
Proof.
  intros Hp. unfold load, mbind, py_bind, get_host, open_r.
  destruct (Model.verbose (host w));
    cbn [when stdout_write mret py_ret set_stdout fs]; rewrite Hp.
  - reflexivity.
  - rewrite string_app_nil_r. by destruct w.
Qed.

(** X12. [load] never writes to a file: whatever the argument, the table and
    the model, and whether it returns or raises, the file system after the
    call is the one before it. *)
Theorem load_keeps_files (f : file_arg) (d : option ExtUnitDict) (w : world) :
  fs (load package_path _generate_heading ExtUnitDict get_ext_dict_attr
        f d w).1
  = fs w.
Proof.
  assert (readable f w ∨ ∃ path, f = FileName path ∧ fs w !! path = None)
    as [Hf | (path & -> & Hp)].
  { destruct f as [path | h]; [| by left].
    destruct (fs w !! path) eqn:E; [left; by eexists | right; eauto]. }
  - destruct (excluded_version (Model.version (host w))) eqn:Hv.
    + destruct (load_excluded_version_raises package_path _generate_heading
                  ExtUnitDict get_ext_dict_attr f d w Hf Hv)
        as (w1 & -> & Hfs & _).
      done.
    + destruct (load_run f d w Hf Hv) as (pks & w1 & -> & _ & _ & Hfs & _).
      done.
  - unfold load, mbind, py_bind, get_host, open_r.
    destruct (Model.verbose (host w));
      cbn [when stdout_write mret py_ret set_stdout fs]; by rewrite Hp.
Qed.

End ConstructionAndLoad.

Lemma init_empty_filenames_witness :
  Kw.filenames (with_unit_and_files None (FnList []) Kw.defaults) = FnList []
  ∧ __init__ sample_path sample_heading
      (with_unit_and_files None (FnList []) Kw.defaults)
      (sample_world "mfnwt")
    = (sample_world "mfnwt", Raise (IndexError "list index out of range")).
Proof.
  split; [reflexivity |].
  apply (init_empty_filenames sample_path sample_heading
           (with_unit_and_files None (FnList []) Kw.defaults)
           (sample_world "mfnwt") eq_refl).
Defined.

Lemma load_then_write_file_witness :
  readable (FileName "old.pks") (sample_world "mf2005")
  ∧ excluded_version (Model.version (host (sample_world "mf2005"))) = false
  ∧ ∃ pks w1,
      load sample_path sample_heading unit sample_resolve
        (FileName "old.pks") (Some tt) (sample_world "mf2005")
      = (w1, Return pks)
      ∧ write_status pks w1 = Return tt
      ∧ file_content pks w1
        = unlines (sample_heading (host (sample_world "mf2005")) (base pks)
                   :: default_directives).
Proof.
  split_and!; [by eexists | reflexivity |].
  apply (load_then_write_file sample_path sample_heading unit sample_resolve
           (FileName "old.pks") (Some tt) (sample_world "mf2005"));
    [by eexists | reflexivity].
Defined.

Lemma load_missing_file_witness :
  fs (sample_world "mf2005") !! "new.pks" = None
  ∧ load sample_path sample_heading unit sample_resolve
      (FileName "new.pks") None (sample_world "mf2005")
    = (set_stdout ("loading pks package file..." +:+ nl)
         (sample_world "mf2005"),
       Raise (FileNotFoundError "new.pks")).
Proof.
  split; [reflexivity |].
  apply (load_missing_file sample_path sample_heading unit sample_resolve
           "new.pks" None (sample_world "mf2005") eq_refl).
Defined.

Section ConstructThenWrite.

Variable package_path : Model.Modflow → string → list (option string) → string.
Variable _generate_heading : Model.Modflow → Package → string.


End ConstructThenWrite.

